(** * finalquizapp: recovery of quiz records from LLM text, retry policy,
      type-mix partition, schema validation and the upload step.

    A shallow embedding of [quiz_generator.py], [utils.py],
    [pdf_processor.py] and the upload and generate steps of [app.py].

    Python values are modelled as follows.
    - [str] is a list of Unicode code points ([pystr]); [str "..."] injects
      a literal.
    - [int] is [Z]; list indices and slice bounds keep Python's sign
      conventions ([find] answers [-1], negative slice bounds count from
      the end).
    - [float] is IEEE 754 binary64 as specified by the Standard Library's
      [SpecFloat] ([prec = 53], [emax = 1024]).
    - [dict] is an insertion-ordered association list with unique keys.
    - a raised exception is the [Raise] branch of [result]. *)

From Stdlib Require Import ZArith NArith List Bool Ascii String Lia.
From Stdlib Require Import DecimalString.
From Stdlib Require Import Floats.SpecFloat.
Import ListNotations.


(* ===================================================================== *)
(** ** Exceptions and results *)
(* ===================================================================== *)

Inductive exn : Type :=
| JSONDecodeError
| RecursionError
| TypeError
| OverflowError
| ValueError
| KeyError
| OtherException.

Inductive result (A : Type) : Type :=
| Ok (a : A)
| Raise (e : exn).

Arguments Ok {A} a.
Arguments Raise {A} e.

Definition rbind {A B} (r : result A) (k : A -> result B) : result B :=
  match r with
  | Ok a => k a
  | Raise e => Raise e
  end.

Notation "r >>= k" := (rbind r k) (at level 50, left associativity).

(* ===================================================================== *)
(** ** Strings *)
(* ===================================================================== *)

Module Str.

Definition pystr := list N.

Definition cp (a : ascii) : N := N_of_ascii a.
Definition str (s : string) : pystr := map cp (list_ascii_of_string s).

Arguments cp a%_char.
Arguments str s%_string.

(** [c == 'a'] for a one-character literal. *)
Definition is_char (a : ascii) (c : N) : bool := N.eqb c (cp a).
Arguments is_char a%_char c.

Fixpoint eqb (a b : pystr) : bool :=
  match a, b with
  | [], [] => true
  | x :: a', y :: b' => N.eqb x y && eqb a' b'
  | _, _ => false
  end.

(** [str.isspace] on one code point (CPython's [_PyUnicode_IsWhitespace]);
    also what [\s] matches in a [str] pattern. *)
Definition isspace (c : N) : bool :=
  ((9 <=? c) && (c <=? 13) || (28 <=? c) && (c <=? 32)
   || (c =? 133) || (c =? 160) || (c =? 5760)
   || (8192 <=? c) && (c <=? 8202)
   || (c =? 8232) || (c =? 8233) || (c =? 8239) || (c =? 8287)
   || (c =? 12288))%N.

Fixpoint drop_while (p : N -> bool) (s : pystr) : pystr :=
  match s with
  | [] => []
  | c :: r => if p c then drop_while p r else s
  end.

Definition lstrip (s : pystr) : pystr := drop_while isspace s.
Definition rstrip (s : pystr) : pystr := rev (drop_while isspace (rev s)).
(** [s.strip()] *)
Definition strip (s : pystr) : pystr := rstrip (lstrip s).

(** [s.startswith(p)] *)
Fixpoint startswith (p s : pystr) : bool :=
  match p, s with
  | [], _ => true
  | x :: p', y :: s' => N.eqb x y && startswith p' s'
  | _ :: _, [] => false
  end.

(** [s.endswith(p)] *)
Definition endswith (p s : pystr) : bool := startswith (rev p) (rev s).

Definition len (s : pystr) : Z := Z.of_nat (List.length s).

(** [s[lo:hi]] with Python's treatment of negative and oversized
    bounds; [None] stands for an omitted bound. *)
Definition clamp (n : Z) (i : Z) : Z :=
  let i := if (i <? 0)%Z then (i + n)%Z else i in
  Z.max 0 (Z.min n i).

Definition slice {A} (lo hi : option Z) (s : list A) : list A :=
  let n := Z.of_nat (List.length s) in
  let l := match lo with Some i => clamp n i | None => 0%Z end in
  let h := match hi with Some i => clamp n i | None => n end in
  firstn (Z.to_nat (h - l)) (skipn (Z.to_nat l) s).

(** [s.find(c)] for a one-character needle: first index or [-1]. *)
Fixpoint find (a : ascii) (s : pystr) : Z :=
  match s with
  | [] => (-1)%Z
  | c :: r =>
      if is_char a c then 0%Z
      else let i := find a r in
           if (i <? 0)%Z then (-1)%Z else (i + 1)%Z
  end.
Arguments find a%_char s.

(** [s.rfind(c)] for a one-character needle: last index or [-1]. *)
Fixpoint rfind (a : ascii) (s : pystr) : Z :=
  match s with
  | [] => (-1)%Z
  | c :: r =>
      let i := rfind a r in
      if (0 <=? i)%Z then (i + 1)%Z
      else if is_char a c then 0%Z else (-1)%Z
  end.
Arguments rfind a%_char s.

(** [s.replace(a, b)] for one-character [a] and [b], given as code
    points. *)
Definition replace (a b : N) (s : pystr) : pystr :=
  map (fun c => if N.eqb c a then b else c) s.

(** [re.sub(r',(\s*[}\]])', r'\1', s)]: a comma, any run of whitespace
    and a closing brace or bracket are replaced by the run and the
    closer; matches are taken left to right and do not overlap.
    [pending] holds the whitespace read since a comma that may still
    turn out to be a trailing one. *)
Fixpoint sub_trailing_commas (pending : option pystr) (s : pystr) : pystr :=
  match s with
  | [] =>
      match pending with
      | Some ws => cp "," :: ws
      | None => []
      end
  | c :: r =>
      match pending with
      | None =>
          if is_char "," c then sub_trailing_commas (Some []) r
          else c :: sub_trailing_commas None r
      | Some ws =>
          if isspace c then sub_trailing_commas (Some (ws ++ [c])) r
          else if (is_char "}" c || is_char "]" c)%bool
          then ws ++ c :: sub_trailing_commas None r
          else if is_char "," c
          then cp "," :: ws ++ sub_trailing_commas (Some []) r
          else cp "," :: ws ++ c :: sub_trailing_commas None r
      end
  end.

End Str.

Import Str.

(* ===================================================================== *)
(** ** JSON values, dictionaries and the decoder *)
(* ===================================================================== *)

Module Json.

(** What [json.loads] builds: [None], [bool], [int], [float] (kept as
    the literal that was read; no function here looks at its numeric
    value), [str], [list] and [dict]. *)
#[warnings="-register-all"] Inductive value : Type :=
| JNull
| JBool (b : bool)
| JInt (z : Z)
| JFloat (lexeme : pystr)
| JString (s : pystr)
| JArray (items : list value)
| JObject (d : list (pystr * value)).

(** A Python [dict] with [str] keys: insertion ordered, keys unique. *)
Definition dict (V : Type) := list (pystr * V).
Definition pydict := dict value.

(** [d.get(k)] *)
Fixpoint dict_get {V} (k : pystr) (d : dict V) : option V :=
  match d with
  | [] => None
  | (k', v) :: r => if Str.eqb k' k then Some v else dict_get k r
  end.

(** [k in d] *)
Definition dict_has {V} (k : pystr) (d : dict V) : bool :=
  match dict_get k d with Some _ => true | None => false end.

(** [d[k] = v]: an existing key keeps its place, a new one goes last. *)
Fixpoint dict_set {V} (k : pystr) (v : V) (d : dict V) : dict V :=
  match d with
  | [] => [(k, v)]
  | (k', v') :: r =>
      if Str.eqb k' k then (k', v) :: r else (k', v') :: dict_set k v r
  end.

(** [dict(pairs)] *)
Definition dict_of_pairs {V} (pairs : list (pystr * V)) : dict V :=
  fold_left (fun d kv => dict_set (fst kv) (snd kv) d) pairs [].

(** *** The decoder (CPython's [json.decoder] with its C scanner,
    default options: [strict=True], no hooks). Functions work on the
    text that remains to be read and answer the value together with
    the rest. Every syntax error is a [JSONDecodeError]; nesting deeper
    than the interpreter allows is a [RecursionError]. The interpreter's
    cap on the number of digits of an integer literal is left out: the
    statements about the recovery hold for any decoder. *)

Definition DQUOTE : N := 34.
Definition BACKSLASH : N := 92.
Definition BOM : N := 65279.

(** [WHITESPACE]: space, tab, line feed, carriage return. *)
Definition json_ws (c : N) : bool :=
  ((c =? 32) || (c =? 9) || (c =? 10) || (c =? 13))%N.
Definition skip_ws (s : pystr) : pystr := drop_while json_ws s.

Definition is_digit (c : N) : bool := ((48 <=? c) && (c <=? 57))%N.

Definition hex_digit (c : N) : option N :=
  if ((48 <=? c) && (c <=? 57))%N then Some (c - 48)%N
  else if ((97 <=? c) && (c <=? 102))%N then Some (c - 87)%N
  else if ((65 <=? c) && (c <=? 70))%N then Some (c - 55)%N
  else None.

Definition hex4 (a b c d : N) : option N :=
  match hex_digit a, hex_digit b, hex_digit c, hex_digit d with
  | Some x, Some y, Some z, Some w => Some (((x * 16 + y) * 16 + z) * 16 + w)%N
  | _, _, _, _ => None
  end.

(** The [BACKSLASH] table of one-letter escapes. *)
Definition backslash (e : N) : option N :=
  if (e =? DQUOTE)%N then Some DQUOTE
  else if (e =? BACKSLASH)%N then Some BACKSLASH
  else if is_char "/" e then Some (cp "/")
  else if is_char "b" e then Some 8%N
  else if is_char "f" e then Some 12%N
  else if is_char "n" e then Some 10%N
  else if is_char "r" e then Some 13%N
  else if is_char "t" e then Some 9%N
  else None.

Definition consr (c : N) (r : result (pystr * pystr)) : result (pystr * pystr) :=
  r >>= (fun p => Ok (c :: fst p, snd p)).

(** [scanstring(s, end, strict=True)], started after the opening quote. *)
Fixpoint scanstring (s : pystr) : result (pystr * pystr) :=
  match s with
  | [] => Raise JSONDecodeError
  | c :: r =>
      if (c =? DQUOTE)%N then Ok ([], r)
      else if (c =? BACKSLASH)%N then
        match r with
        | [] => Raise JSONDecodeError
        | e :: r1 =>
            if is_char "u" e then
              match r1 with
              | h1 :: h2 :: h3 :: h4 :: r2 =>
                  match hex4 h1 h2 h3 h4 with
                  | None => Raise JSONDecodeError
                  | Some uni =>
                      if ((55296 <=? uni) && (uni <=? 56319))%N then
                        match r2 with
                        | b :: u :: g1 :: g2 :: g3 :: g4 :: r3 =>
                            if ((b =? BACKSLASH)%N && is_char "u" u)%bool then
                              match hex4 g1 g2 g3 g4 with
                              | None => Raise JSONDecodeError
                              | Some uni2 =>
                                  if ((56320 <=? uni2) && (uni2 <=? 57343))%N then
                                    consr (65536 + ((uni - 55296) * 1024 + (uni2 - 56320)))%N
                                          (scanstring r3)
                                  else consr uni (scanstring r2)
                              end
                            else consr uni (scanstring r2)
                        | _ => consr uni (scanstring r2)
                        end
                      else consr uni (scanstring r2)
                  end
              | _ => Raise JSONDecodeError
              end
            else
              match backslash e with
              | Some ch => consr ch (scanstring r1)
              | None => Raise JSONDecodeError
              end
        end
      else if (c <? 32)%N then Raise JSONDecodeError
      else consr c (scanstring r)
  end.

Fixpoint span_digits (s : pystr) : pystr * pystr :=
  match s with
  | [] => ([], [])
  | c :: r =>
      if is_digit c then let (ds, r') := span_digits r in (c :: ds, r')
      else ([], s)
  end.

(** [int(digits)] for a run of ASCII digits. *)
Definition int_of_digits (ds : pystr) : Z :=
  fold_left (fun acc c => (acc * 10 + Z.of_N (c - 48))%Z) ds 0%Z.

(** The integer part of [NUMBER_RE]: an optional minus sign, then
    either a single zero or a non-zero digit and more digits. Answers
    sign, digits and the rest. *)
Definition match_integer (s : pystr) : option (bool * pystr * pystr) :=
  let (neg, s1) :=
    match s with
    | c :: r => if is_char "-" c then (true, r) else (false, s)
    | [] => (false, s)
    end in
  match s1 with
  | d :: r =>
      if is_char "0" d then Some (neg, [d], r)
      else if is_digit d then
        let (ds, r') := span_digits r in Some (neg, d :: ds, r')
      else None
  | [] => None
  end.

(** The optional fraction: a dot and at least one digit. *)
Definition match_frac (s : pystr) : pystr * pystr :=
  match s with
  | dot :: f :: r =>
      if (is_char "." dot && is_digit f)%bool then
        let (fs, r') := span_digits r in (dot :: f :: fs, r')
      else ([], s)
  | _ => ([], s)
  end.

(** The optional exponent: e or E, an optional sign, digits; without
    a digit nothing is consumed. *)
Definition match_exp (s : pystr) : pystr * pystr :=
  match s with
  | e :: r =>
      if (is_char "e" e || is_char "E" e)%bool then
        let (sign, r1) :=
          match r with
          | c :: r' =>
              if (is_char "-" c || is_char "+" c)%bool then ([c], r') else ([], r)
          | [] => ([], r)
          end in
        match span_digits r1 with
        | ([], _) => ([], s)
        | (ds, r2) => (e :: sign ++ ds, r2)
        end
      else ([], s)
  | [] => ([], s)
  end.

Definition match_number (s : pystr) : option (value * pystr) :=
  match match_integer s with
  | None => None
  | Some (neg, ds, r) =>
      let (frac, r1) := match_frac r in
      let (ex, r2) := match_exp r1 in
      match frac, ex with
      | [], [] =>
          Some (JInt (if neg then - int_of_digits ds else int_of_digits ds)%Z, r2)
      | _, _ =>
          Some (JFloat ((if neg then [cp "-"] else []) ++ ds ++ frac ++ ex), r2)
      end
  end.

Section Containers.
(** [scan_once], as [JSONArray] and [JSONObject] receive it. *)
Variable scan_once : pystr -> result (value * pystr).

(** The loop of [JSONArray]; every turn reads at least one
    character, so [steps] bounded by the text's length never runs out. *)
Fixpoint array_items (steps : nat) (s : pystr) : result (list value * pystr) :=
  match steps with
  | O => Raise JSONDecodeError
  | S n =>
      scan_once s >>= (fun vr =>
      match skip_ws (snd vr) with
      | c :: r' =>
          if is_char "]" c then Ok ([fst vr], r')
          else if is_char "," c then
            array_items n (skip_ws r') >>= (fun vsr =>
            Ok (fst vr :: fst vsr, snd vsr))
          else Raise JSONDecodeError
      | [] => Raise JSONDecodeError
      end)
  end.

(** [JSONArray], started after the opening bracket. *)
Definition JSONArray (s : pystr) : result (value * pystr) :=
  let s1 := skip_ws s in
  match s1 with
  | c :: r =>
      if is_char "]" c then Ok (JArray [], r)
      else array_items (List.length s1) s1 >>= (fun vsr =>
           Ok (JArray (fst vsr), snd vsr))
  | [] => Raise JSONDecodeError
  end.

(** The loop of [JSONObject], started after the opening quote of a key. *)
Fixpoint object_items (steps : nat) (s : pystr)
  : result (list (pystr * value) * pystr) :=
  match steps with
  | O => Raise JSONDecodeError
  | S n =>
      scanstring s >>= (fun kr =>
      match skip_ws (snd kr) with
      | c :: r1 =>
          if is_char ":" c then
            scan_once (skip_ws r1) >>= (fun vr =>
            match skip_ws (snd vr) with
            | c' :: r4 =>
                if is_char "}" c' then Ok ([(fst kr, fst vr)], r4)
                else if is_char "," c' then
                  match skip_ws r4 with
                  | q :: r5 =>
                      if (q =? DQUOTE)%N then
                        object_items n r5 >>= (fun psr =>
                        Ok ((fst kr, fst vr) :: fst psr, snd psr))
                      else Raise JSONDecodeError
                  | [] => Raise JSONDecodeError
                  end
                else Raise JSONDecodeError
            | [] => Raise JSONDecodeError
            end)
          else Raise JSONDecodeError
      | [] => Raise JSONDecodeError
      end)
  end.

(** [JSONObject], started after the opening brace. *)
Definition JSONObject (s : pystr) : result (value * pystr) :=
  match skip_ws s with
  | c :: r =>
      if is_char "}" c then Ok (JObject [], r)
      else if (c =? DQUOTE)%N then
        object_items (List.length r) r >>= (fun psr =>
        Ok (JObject (dict_of_pairs (fst psr)), snd psr))
      else Raise JSONDecodeError
  | [] => Raise JSONDecodeError
  end.
End Containers.

(** [scan_once]; [depth] is the nesting the interpreter still allows
    before it raises [RecursionError]. *)
Fixpoint scan_once (depth : nat) (s : pystr) : result (value * pystr) :=
  match depth with
  | O => Raise RecursionError
  | S d =>
      match s with
      | [] => Raise JSONDecodeError
      | c :: r =>
          if (c =? DQUOTE)%N then
            scanstring r >>= (fun p => Ok (JString (fst p), snd p))
          else if is_char "{" c then JSONObject (scan_once d) r
          else if is_char "[" c then JSONArray (scan_once d) r
          else if startswith (str "null") s then Ok (JNull, skipn 4 s)
          else if startswith (str "true") s then Ok (JBool true, skipn 4 s)
          else if startswith (str "false") s then Ok (JBool false, skipn 5 s)
          else
            match match_number s with
            | Some vr => Ok vr
            | None =>
                if startswith (str "NaN") s
                then Ok (JFloat (str "NaN"), skipn 3 s)
                else if startswith (str "Infinity") s
                then Ok (JFloat (str "Infinity"), skipn 8 s)
                else if startswith (str "-Infinity") s
                then Ok (JFloat (str "-Infinity"), skipn 9 s)
                else Raise JSONDecodeError
            end
      end
  end.

(** [JSONDecoder.decode]: one value, then only whitespace. *)
Definition decode (depth : nat) (s : pystr) : result value :=
  scan_once depth (skip_ws s) >>= (fun vr =>
  match skip_ws (snd vr) with
  | [] => Ok (fst vr)
  | _ :: _ => Raise JSONDecodeError
  end).

(** The interpreter's default recursion limit. *)
Definition recursion_limit : nat := 1000.

(** [json.loads(s)] for a [str] argument. *)
Definition loads (s : pystr) : result value :=
  match s with
  | c :: _ => if (c =? BOM)%N then Raise JSONDecodeError else decode recursion_limit s
  | [] => decode recursion_limit s
  end.

End Json.

Import Json.

(* ===================================================================== *)
(** ** Floating point: [int(num_questions * 0.7)] *)
(* ===================================================================== *)

Module PyFloat.

Definition prec : Z := 53.
Definition emax : Z := 1024.

(** The literal [0.7]: the binary64 number nearest to 7/10,
    [6305039478318694 * 2^-53]. *)
Definition lit_0_7 : spec_float := S754_finite false 6305039478318694 (-53).

(** [float(n)] as the multiplication converts its [int] operand:
    correctly rounded, [OverflowError] past the largest double. *)
Definition of_int (n : Z) : result spec_float :=
  match binary_normalize prec emax n 0 false with
  | S754_infinity _ => Raise OverflowError
  | f => Ok f
  end.

(** [x * y] on doubles. *)
Definition mul (x y : spec_float) : spec_float := SFmul prec emax x y.

(** [int(x)]: truncation toward zero. *)
Definition to_int (x : spec_float) : result Z :=
  match x with
  | S754_zero _ => Ok 0%Z
  | S754_finite s m e =>
      Ok (cond_Zopp s (if (0 <=? e)%Z then Zpos m * 2 ^ e
                       else Zpos m / 2 ^ (- e)))%Z
  | S754_infinity _ => Raise OverflowError
  | S754_nan => Raise ValueError
  end.

(** [int(n * 0.7)] for an [int] [n]. *)
Definition int_times_0_7 (n : Z) : result Z :=
  of_int n >>= (fun x => to_int (mul x lit_0_7)).

End PyFloat.

(* ===================================================================== *)
(** ** quiz_generator.py *)
(* ===================================================================== *)

(** The two question kinds and what tells their prompts apart. *)
Inductive kind : Type := MultipleChoice | TrueFalse.

(** A call of [client.models.generate_content]. The prompt text is a
    fixed function of the kind, the count, the difficulty and the source
    text, so the request records those; [temperature] is 0.7 in both. *)
Record request : Type := {
  req_model : pystr;
  req_kind : kind;
  req_count : Z;
  req_difficulty : pystr;
  req_text : pystr;
  req_max_output_tokens : Z
}.

(** What a call does: it raises, or answers a response whose [.text] is
    [None] or a string. *)
Inductive response : Type :=
| ServiceError
| Response (text : option pystr).

(** The calls made so far, oldest first. *)
Definition calls := list request.

(** Computations that call the service. *)
Definition M (A : Type) : Type := calls -> A * calls.

Definition ret {A} (a : A) : M A := fun w => (a, w).
Definition bind {A B} (m : M A) (k : A -> M B) : M B :=
  fun w => let (a, w') := m w in k a w'.

(** [range(n)] *)
Definition range (n : nat) : list Z := map Z.of_nat (seq 0 n).

(** [if text:] for an optional string. *)
Definition truthy (text : option pystr) : bool :=
  match text with
  | Some (_ :: _) => true
  | _ => false
  end.

Section QuizGenerator.

(** [json.loads]; [Json.loads] is the decoder modelled above. *)
Variable json_loads : pystr -> result value.

(** The service: its answer may depend on how many calls came before
    and on the request. *)
Variable generate_content : nat -> request -> response.

Definition call (req : request) : M response :=
  fun w => (generate_content (List.length w) req, w ++ [req]).

(** The loop over [questions_data] (lines 44-48 and 58-62). *)
Fixpoint valid_questions (question_type : pystr) (questions_data : list value)
  : list value :=
  match questions_data with
  | [] => []
  | q :: rest =>
      match q with
      | JObject d =>
          if (dict_has (str "question") d && dict_has (str "correct_answer") d)%bool
          then JObject (dict_set (str "type") (JString question_type) d)
                 :: valid_questions question_type rest
          else valid_questions question_type rest
      | _ => valid_questions question_type rest
      end
  end.

(** Lines 22-31: strip, drop the code fence, strip again. *)
Definition clean_response (response_text : pystr) : pystr :=
  let text := strip response_text in
  let text :=
    if startswith (str "```json") text then slice (Some 7%Z) None text
    else if startswith (str "```") text then slice (Some 3%Z) None text
    else text in
  let text :=
    if endswith (str "```") text then slice None (Some (-3)%Z) text
    else text in
  strip text.

(** Line 52 and 54. *)
Definition fix_json (json_text : pystr) : pystr :=
  sub_trailing_commas None (replace (cp "'") DQUOTE json_text).

(** The body of the outer [try] (lines 21-68). *)
Definition extract_body (response_text question_type : pystr)
  : result (list value) :=
  let text := clean_response response_text in
  let start_idx := find "[" text in
  let end_idx := (rfind "]" text + 1)%Z in
  if (negb (start_idx =? -1)%Z && (end_idx >? start_idx)%Z)%bool then
    let json_text := slice (Some start_idx) (Some end_idx) text in
    match json_loads json_text with
    | Ok (JArray questions_data) =>
        Ok (valid_questions question_type questions_data)
    | Ok _ => Ok []
    | Raise JSONDecodeError =>
        let fixed_text := fix_json json_text in
        match json_loads fixed_text with
        | Ok (JArray questions_data) =>
            Ok (valid_questions question_type questions_data)
        | Ok _ => Ok []
        | Raise JSONDecodeError => Ok []
        | Raise e => Raise e
        end
    | Raise e => Raise e
    end
  else Ok [].

(** [_extract_json_from_response]: the body under
    [except Exception: return []]. *)
Definition _extract_json_from_response (response_text question_type : pystr)
  : list value :=
  match extract_body response_text question_type with
  | Ok questions => questions
  | Raise _ => []
  end.

(** The retry loop shared by the two batch generators (lines 142-168
    and 194-220), over the attempts still to run. *)
Fixpoint retry_loop (question_type : pystr) (req : request) (count : Z)
         (max_retries : Z) (attempts : list Z) : M (list value) :=
  match attempts with
  | [] => ret []
  | attempt :: rest =>
      bind (call req) (fun resp =>
      match resp with
      | ServiceError =>
          if (attempt =? max_retries - 1)%Z then ret []
          else retry_loop question_type req count max_retries rest
      | Response text =>
          if truthy text then
            let questions :=
              _extract_json_from_response
                (match text with Some t => t | None => [] end) question_type in
            if (Z.of_nat (List.length questions) =? count)%Z then ret questions
            else if (Z.of_nat (List.length questions) >? 0)%Z
                 then ret (slice None (Some count) questions)
                 else retry_loop question_type req count max_retries rest
          else retry_loop question_type req count max_retries rest
      end)
  end.

Definition gemini_model : pystr := str "gemini-2.5-flash".

Definition _generate_multiple_choice_questions
           (text : pystr) (count : Z) (difficulty : pystr) : M (list value) :=
  let max_retries := 2%nat in
  retry_loop (str "multiple_choice")
    {| req_model := gemini_model; req_kind := MultipleChoice;
       req_count := count; req_difficulty := difficulty; req_text := text;
       req_max_output_tokens := 8000 |}
    count (Z.of_nat max_retries) (range max_retries).

Definition _generate_true_false_questions
           (text : pystr) (count : Z) (difficulty : pystr) : M (list value) :=
  let max_retries := 2%nat in
  retry_loop (str "true_false")
    {| req_model := gemini_model; req_kind := TrueFalse;
       req_count := count; req_difficulty := difficulty; req_text := text;
       req_max_output_tokens := 6000 |}
    count (Z.of_nat max_retries) (range max_retries).

(** [name in question_types] *)
Definition requested (name : string) (question_types : list pystr) : bool :=
  existsb (fun t => Str.eqb t (str name)) question_types.

(** Lines 88-101: the distribution of question types,
    [(mc_count, tf_count)]. *)
Definition distribution (num_questions : Z) (question_types : option (list pystr))
  : result (Z * Z) :=
  let question_types :=
    match question_types with
    | None => [str "Multiple Choice"; str "True/False"]
    | Some l => l
    end in
  if (requested "Multiple Choice" question_types
      && requested "True/False" question_types)%bool then
    PyFloat.int_times_0_7 num_questions >>= (fun mc_count =>
    Ok (mc_count, (num_questions - mc_count)%Z))
  else if requested "Multiple Choice" question_types then Ok (num_questions, 0%Z)
  else if requested "True/False" question_types then Ok (0%Z, num_questions)
  else Ok (0%Z, 0%Z).

(** [generate_quiz] *)
Definition generate_quiz (text : pystr) (num_questions : Z) (difficulty : pystr)
           (question_types : option (list pystr)) : M (result (list value)) :=
  match distribution num_questions question_types with
  | Raise e => ret (Raise e)
  | Ok (mc_count, tf_count) =>
      bind (if (mc_count >? 0)%Z
            then _generate_multiple_choice_questions text mc_count difficulty
            else ret [])
           (fun mc_questions =>
      bind (if (tf_count >? 0)%Z
            then _generate_true_false_questions text tf_count difficulty
            else ret [])
           (fun tf_questions =>
      ret (Ok (mc_questions ++ tf_questions))))
  end.

(** [obj[k]] on a dict. *)
Definition dict_index (k : pystr) (d : pydict) : result value :=
  match dict_get k d with
  | Some v => Ok v
  | None => Raise KeyError
  end.

(** [v == s] for a string literal [s]. *)
Definition eq_str (v : value) (s : string) : bool :=
  match v with
  | JString t => Str.eqb t (str s)
  | _ => false
  end.

(** [v in [s1, ..., sn]] for string literals. *)
Definition in_strs (v : value) (l : list string) : bool :=
  existsb (eq_str v) l.

(** [len(v)] *)
Definition py_len (v : value) : result Z :=
  match v with
  | JString s => Ok (Z.of_nat (List.length s))
  | JArray l => Ok (Z.of_nat (List.length l))
  | JObject d => Ok (Z.of_nat (List.length d))
  | _ => Raise TypeError
  end.

(** [isinstance(v, list)] *)
Definition is_list (v : value) : bool :=
  match v with
  | JArray _ => true
  | _ => false
  end.

Definition required_fields : list pystr :=
  [str "question"; str "correct_answer"; str "type"].

(** One turn of the loop of [validate_quiz_data] (lines 227-238):
    [Ok false] is [return False], [Ok true] goes on to the next
    question. *)
Definition validate_one (question : pydict) : result bool :=
  if negb (forallb (fun field => dict_has field question) required_fields)
  then Ok false
  else
    dict_index (str "type") question >>= (fun ty =>
    if eq_str ty "multiple_choice" then
      (if negb (dict_has (str "options") question) then Ok true
       else dict_index (str "options") question >>= (fun o =>
            py_len o >>= (fun n => Ok (negb (n =? 4)%Z)))) >>= (fun bad =>
      if bad : bool then Ok false
      else
        dict_index (str "correct_answer") question >>= (fun a =>
        if negb (in_strs a ["A"; "B"; "C"; "D"]%string) then Ok false
        else Ok true))
    else
      dict_index (str "type") question >>= (fun ty' =>
      if eq_str ty' "true_false" then
        dict_index (str "correct_answer") question >>= (fun a =>
        if negb (in_strs a ["True"; "False"]%string) then Ok false
        else Ok true)
      else Ok true)).

(** [QuizGenerator.validate_quiz_data] *)
Fixpoint validate_quiz_data (quiz_data : list pydict) : result bool :=
  match quiz_data with
  | [] => Ok true
  | question :: rest =>
      validate_one question >>= (fun ok =>
      if ok : bool then validate_quiz_data rest else Ok false)
  end.

End QuizGenerator.

(* ===================================================================== *)
(** ** utils.py *)
(* ===================================================================== *)

(** [validate_question_data] *)
Definition validate_question_data (question : pydict) : result bool :=
  if negb (forallb (fun field => dict_has field question) required_fields)
  then Ok false
  else
    dict_index (str "type") question >>= (fun ty =>
    if eq_str ty "multiple_choice" then
      if negb (dict_has (str "options") question) then Ok false
      else
        dict_index (str "options") question >>= (fun o =>
        (if negb (is_list o) then Ok true
         else py_len o >>= (fun n => Ok (negb (n =? 4)%Z))) >>= (fun bad =>
        if bad : bool then Ok false
        else
          dict_index (str "correct_answer") question >>= (fun a =>
          if negb (in_strs a ["A"; "B"; "C"; "D"]%string) then Ok false
          else Ok true)))
    else
      dict_index (str "type") question >>= (fun ty' =>
      if eq_str ty' "true_false" then
        dict_index (str "correct_answer") question >>= (fun a =>
        if negb (in_strs a ["True"; "False"]%string) then Ok false
        else Ok true)
      else Ok false)).

(* ===================================================================== *)
(** ** pdf_processor.py *)
(* ===================================================================== *)

(** What [_extract_with_pypdf2] ends with: the joined page texts, or an
    exception (it re-raises) with its message. *)
Inductive extraction : Type :=
| Extracted (text : pystr)
| ExtractionFailed (message : pystr).

Definition NO_READABLE_TEXT : pystr :=
  str "No readable text could be extracted from this PDF.".

(** [if text:] for a string. *)
Definition nonempty (text : pystr) : bool :=
  match text with
  | [] => false
  | _ :: _ => true
  end.

Section PDFProcessor.

Variable path : Type.

(** The PyPDF2 pass over the file. *)
Variable _extract_with_pypdf2 : path -> extraction.

(** The [unstructured] pass: [None] when the library is missing or
    fails (it catches every exception itself). *)
Variable _extract_with_unstructured : path -> option pystr.

(** [PDFProcessor.extract_text_from_pdf] *)
Definition extract_text_from_pdf (file_path : path) : pystr :=
  match _extract_with_pypdf2 file_path with
  | ExtractionFailed message => str "Error processing PDF: " ++ message
  | Extracted text =>
      if (nonempty text && (len (strip text) >? 50)%Z)%bool then text
      else
        match _extract_with_unstructured file_path with
        | Some text' =>
            if (nonempty text' && (len (strip text') >? 100)%Z)%bool then text'
            else NO_READABLE_TEXT
        | None => NO_READABLE_TEXT
        end
  end.

End PDFProcessor.

Arguments extract_text_from_pdf {path} _ _ file_path.

(* ===================================================================== *)
(** ** app.py: one run of the script *)
(* ===================================================================== *)

(** [st.session_state] *)
Record session_state : Type := {
  quiz_data : option (list value);
  pdf_processed : bool;
  extracted_text : pystr
}.

(** Lines 121-126. *)
Definition initial_state : session_state :=
  {| quiz_data := None; pdf_processed := false; extracted_text := [] |}.

Section App.

Variable json_loads : pystr -> result value.
Variable generate_content : nat -> request -> response.
Variable path : Type.
Variable _extract_with_pypdf2 : path -> extraction.
Variable _extract_with_unstructured : path -> option pystr.

(** What the widgets hand to one run. *)
Record widgets : Type := {
  uploaded_file : option path;
  num_questions : Z;
  difficulty_level : pystr;
  question_types : list pystr;
  api_key : pystr;
  generate_clicked : bool
}.

(** Lines 190-222: process the PDF when uploaded. The temporary file
    is taken to be written without error. *)
Definition process_upload (ui : widgets) (st : session_state) : session_state :=
  match uploaded_file ui with
  | Some tmp_file_path =>
      if negb (pdf_processed st) then
        let text :=
          extract_text_from_pdf _extract_with_pypdf2 _extract_with_unstructured
                                tmp_file_path in
        if nonempty (strip text) then
          {| quiz_data := quiz_data st;
             pdf_processed := true;
             extracted_text := text |}
        else st
      else st
  | None => st
  end.

(** Lines 225-247: the generate button. The client is taken to be
    built without error; an exception of [generate_quiz] is reported
    and leaves the state as it is. *)
Definition generate_section (ui : widgets) (st : session_state) : M session_state :=
  if (pdf_processed st && nonempty (api_key ui))%bool then
    if generate_clicked ui then
      bind (generate_quiz json_loads generate_content
              (extracted_text st) (num_questions ui) (difficulty_level ui)
              (Some (question_types ui)))
           (fun r =>
      match r with
      | Ok (q :: qs) =>
          ret {| quiz_data := Some (q :: qs);
                 pdf_processed := pdf_processed st;
                 extracted_text := extracted_text st |}
      | _ => ret st
      end)
    else ret st
  else ret st.

(** One run of the script on the session state. *)
Definition script_run (ui : widgets) (st : session_state) : M session_state :=
  generate_section ui (process_upload ui st).

End App.

Arguments uploaded_file {path} w.
Arguments num_questions {path} w.
Arguments difficulty_level {path} w.
Arguments question_types {path} w.
Arguments api_key {path} w.
Arguments generate_clicked {path} w.
Arguments process_upload {path} _ _ ui st.
Arguments generate_section _ _ {path} ui st.
Arguments script_run _ _ {path} _ _ ui st.


(* ===================================================================== *)
(** ** pdf_processor.py: cleaning and the page loop *)
(* ===================================================================== *)

(** [s.split(sep)] for a one-character separator: never empty. *)
Fixpoint split_on (sep : N) (s : pystr) : list pystr :=
  match s with
  | [] => [[]]
  | c :: r =>
      if (c =? sep)%N then [] :: split_on sep r
      else match split_on sep r with
           | w :: ws => (c :: w) :: ws
           | [] => [[c]]
           end
  end.

(** [s.split()]: the maximal runs of characters that are not
    whitespace. *)
Fixpoint split_ws (s : pystr) : list pystr :=
  match s with
  | [] => []
  | c :: r =>
      if isspace c then split_ws r
      else match r with
           | [] => [[c]]
           | c' :: _ =>
               if isspace c' then [c] :: split_ws r
               else match split_ws r with
                    | w :: ws => (c :: w) :: ws
                    | [] => [[c]]
                    end
           end
  end.

(** [sep.join(parts)] *)
Fixpoint join (sep : pystr) (parts : list pystr) : pystr :=
  match parts with
  | [] => []
  | [x] => x
  | x :: rest => x ++ sep ++ join sep rest
  end.

(** [s.replace(a, '')] for a one-character [a]. *)
Definition remove_char (a : N) (s : pystr) : pystr :=
  filter (fun c => negb (c =? a)%N) s.

(** [str(n)] for an [int]. *)
Definition str_of_int (n : Z) : pystr :=
  str (NilZero.string_of_int (Z.to_int n)).

(** The loop of [_clean_extracted_text] (lines 109-114). *)
Fixpoint cleaned_lines (lines : list pystr) : list pystr :=
  match lines with
  | [] => []
  | line :: rest =>
      let line := strip line in
      if (nonempty line && (len line >? 2)%Z)%bool
      then join (str " ") (split_ws line) :: cleaned_lines rest
      else cleaned_lines rest
  end.

(** [PDFProcessor._clean_extracted_text] *)
Definition _clean_extracted_text (text : pystr) : pystr :=
  if negb (nonempty text) then []
  else
    let lines := split_on 10 text in
    let cleaned_text := join (str " ") (cleaned_lines lines) in
    let cleaned_text := remove_char 0 cleaned_text in
    join (str " ") (split_ws cleaned_text).

(** What [page.extract_text()] does on one page: it answers the page's
    text or raises. *)
Inductive page : Type :=
| PageText (text : pystr)
| PageError.

(** What opening and reading the file gives: an exception, with its
    message, or the pages. *)
Inductive pdf_reader : Type :=
| Unreadable (message : pystr)
| Pages (pages : list page).

(** The loop over the pages (lines 82-92); [page_num] is the index of
    the first page of [pages]. *)
Fixpoint page_entries (page_num : Z) (pages : list page) : list pystr :=
  match pages with
  | [] => []
  | p :: rest =>
      match p with
      | PageText page_text =>
          if nonempty (strip page_text) then
            let cleaned_text := _clean_extracted_text page_text in
            if nonempty cleaned_text then
              (str "--- Page " ++ str_of_int (page_num + 1) ++ str " ---"
                   ++ [10%N] ++ cleaned_text)
                :: page_entries (page_num + 1) rest
            else page_entries (page_num + 1) rest
          else page_entries (page_num + 1) rest
      | PageError => page_entries (page_num + 1) rest
      end
  end.

Section PyPDF2.

Variable path : Type.

(** [PyPDF2.PdfReader] on the opened file. *)
Variable read_pdf : path -> pdf_reader.

(** [PDFProcessor._extract_with_pypdf2] *)
Definition _extract_with_pypdf2 (file_path : path) : extraction :=
match read_pdf file_path with
| Unreadable message => ExtractionFailed message
| Pages pages => Extracted (join [10%N; 10%N] (page_entries 0 pages))
end.

(** Writing the upload to a temporary file: its path, or the message of
  the exception. *)
Variable upload : Type.
Variable write_temp : upload -> pystr + path.

(** [os.unlink]: [None] when it succeeds, the message of its exception
  otherwise. *)
Variable unlink : path -> option pystr.

Variable _extract_with_unstructured : path -> option pystr.

(** [PDFProcessor.extract_text_from_uploaded_file] *)
Definition extract_text_from_uploaded_file (uploaded_file : upload) : pystr :=
match write_temp uploaded_file with
| inl message => str "Error processing uploaded file: " ++ message
| inr tmp_file_path =>
    let text :=
      extract_text_from_pdf _extract_with_pypdf2 _extract_with_unstructured
                            tmp_file_path in
    match unlink tmp_file_path with
    | Some message => str "Error processing uploaded file: " ++ message
    | None => text
    end
end.

End PyPDF2.

Arguments _extract_with_pypdf2 {path} read_pdf file_path.
Arguments extract_text_from_uploaded_file {path} read_pdf {upload} write_temp unlink _ uploaded_file.

(* ===================================================================== *)
(** ** utils.py: the text export *)
(* ===================================================================== *)

(** [chr(n)] *)
Definition py_chr (n : Z) : result N :=
  if ((0 <=? n) && (n <=? 1114111))%Z then Ok (Z.to_N n) else Raise ValueError.

(** The elements a [for] loop draws from a value: the items of a list,
    the characters of a string, the keys of a dict; anything else is not
    iterable. *)
Definition py_iter (v : value) : result (list value) :=
  match v with
  | JArray l => Ok l
  | JString s => Ok (map (fun c => JString [c]) s)
  | JObject d => Ok (map (fun kv => JString (fst kv)) d)
  | _ => Raise TypeError
  end.

Section TextExport.

(** [str(v)], as an f-string formats a value. *)
Variable py_str : value -> pystr.

(** The truth value of a value. *)
Variable py_bool : value -> bool.

(** Lines 164-166: one line per option, lettered from A. *)
Fixpoint option_lines (j : Z) (options : list value) : result (list pystr) :=
match options with
| [] => Ok []
| option :: rest =>
    py_chr (65 + j) >>= (fun option_letter =>
    option_lines (j + 1) rest >>= (fun more =>
    Ok ((str "   " ++ [option_letter] ++ str ". " ++ py_str option) :: more)))
end.

(** Lines 159-174: the questions, numbered from [i]. *)
Fixpoint question_lines (i : Z) (quiz_data : list pydict) : result (list pystr) :=
match quiz_data with
| [] => Ok []
| question :: rest =>
    dict_index (str "question") question >>= (fun q =>
    dict_index (str "type") question >>= (fun ty =>
    (if eq_str ty "multiple_choice" then
       dict_index (str "options") question >>= (fun options =>
       py_iter options >>= (fun items => option_lines 0 items))
     else
       dict_index (str "type") question >>= (fun ty' =>
       if eq_str ty' "true_false"
       then Ok [str "   A. True"; str "   B. False"]
       else Ok [])) >>= (fun body =>
    question_lines (i + 1) rest >>= (fun more =>
    Ok ([str "Question " ++ str_of_int i ++ str ": " ++ py_str q; []]
          ++ body
          ++ [[]; repeat (cp "-") 40; []]
          ++ more)))))
end.

(** Lines 183-187: the answer key, numbered from [i]. *)
Fixpoint answer_lines (i : Z) (quiz_data : list pydict) : result (list pystr) :=
match quiz_data with
| [] => Ok []
| question :: rest =>
    dict_index (str "correct_answer") question >>= (fun a =>
    (if dict_has (str "explanation") question then
       dict_index (str "explanation") question >>= (fun e =>
       if py_bool e
       then Ok [str "   Explanation: " ++ py_str e]
       else Ok [])
     else Ok []) >>= (fun explanation =>
    answer_lines (i + 1) rest >>= (fun more =>
    Ok ([str "Question " ++ str_of_int i ++ str ": " ++ py_str a]
          ++ explanation ++ [[]] ++ more))))
end.

(** Lines 143-156; the title starts with U+1F3AF. *)
Definition export_header (current_date : pystr) (quiz_data : list pydict)
: list pystr :=
[repeat (cp "=") 60;
 [127919%N] ++ str " AI GENERATED QUIZ";
 repeat (cp "=") 60;
 str "Generated on: " ++ current_date;
 str "Total Questions: " ++ str_of_int (Z.of_nat (List.length quiz_data));
 [];
 str "INSTRUCTIONS:";
 str "Choose the best answer for each question.";
 str "For True/False questions, select True or False.";
 [];
 repeat (cp "=") 60;
 str "QUESTIONS";
 repeat (cp "=") 60;
 []].

(** Lines 177-181. *)
Definition answer_key_header : list pystr :=
[[]; repeat (cp "=") 60; str "ANSWER KEY"; repeat (cp "=") 60; []].

(** The list [lines] at the end of [export_quiz_to_text]. *)
Definition export_lines (current_date : pystr) (quiz_data : list pydict)
: result (list pystr) :=
question_lines 1 quiz_data >>= (fun questions =>
answer_lines 1 quiz_data >>= (fun answers =>
Ok (export_header current_date quiz_data ++ questions
      ++ answer_key_header ++ answers))).

(** [export_quiz_to_text]; [current_date] is the formatted date of the
  day. *)
Definition export_quiz_to_text (current_date : pystr) (quiz_data : list pydict)
: result pystr :=
export_lines current_date quiz_data >>= (fun lines => Ok (join [10%N] lines)).

End TextExport.

(* ===================================================================== *)
(** * Vocabulary of the statements *)
(* ===================================================================== *)

(** The text holds an opening bracket with a closing bracket after it. *)
Definition bracketed (s : pystr) : Prop :=
  exists i j, (i < j)%nat /\ nth_error s i = Some (cp "[")
              /\ nth_error s j = Some (cp "]").

(** The substring from the first opening bracket to the last closing
    bracket (line 38). *)
Definition array_text (text : pystr) : pystr :=
  slice (Some (find "[" text)) (Some (rfind "]" text + 1)%Z) text.

(** An element the recovery keeps: a mapping with both required keys. *)
Definition is_question (q : value) : bool :=
  match q with
  | JObject d => (dict_has (str "question") d && dict_has (str "correct_answer") d)%bool
  | _ => false
  end.

(** Tagging an element with the expected type. *)
Definition tag (question_type : pystr) (q : value) : value :=
  match q with
  | JObject d => JObject (dict_set (str "type") (JString question_type) d)
  | _ => q
  end.

(** A record as the recovery hands it on. *)
Definition tagged_question (question_type : pystr) (q : value) : Prop :=
  exists d, q = JObject d
            /\ dict_has (str "question") d = true
            /\ dict_has (str "correct_answer") d = true
            /\ dict_get (str "type") d = Some (JString question_type).

(** The spec's sample of a reply with single quotes and a trailing comma. *)
Definition sample_reply : pystr :=
  str "[{'question': 'Q?', 'correct_answer': 'A',}]".

(** A reply whose brackets nest deeper than the interpreter allows. The
    single quote inside its first string turns, once replaced, the text up
    to the next double quote into one string, brackets included. *)
Definition deep_reply : pystr :=
  str "[" ++ [DQUOTE] ++ str "'," ++ [DQUOTE] ++ str ", "
      ++ repeat (cp "[") 1000 ++ repeat (cp "]") 1000
      ++ str ", " ++ [DQUOTE]
      ++ str ",{'question': 'Q?', 'correct_answer': 'A'}]".

(** A reply with four elements, two of which are questions. *)
Definition mixed_reply : pystr :=
  str "[{'question': 'Q?', 'correct_answer': 'A',}, 7, {'question': 'R?'}, {'correct_answer': 'B', 'question': 'S?'}]".

Definition has_required (q : pydict) : Prop :=
  dict_has (str "question") q = true
  /\ dict_has (str "correct_answer") q = true
  /\ dict_has (str "type") q = true.

Definition well_formed_mc (q : pydict) : Prop :=
  dict_get (str "type") q = Some (JString (str "multiple_choice"))
  /\ (exists options, dict_get (str "options") q = Some (JArray options)
                      /\ List.length options = 4%nat)
  /\ (exists a, In a ["A"; "B"; "C"; "D"]%string
                /\ dict_get (str "correct_answer") q = Some (JString (str a))).

Definition well_formed_tf (q : pydict) : Prop :=
  dict_get (str "type") q = Some (JString (str "true_false"))
  /\ (exists a, In a ["True"; "False"]%string
                /\ dict_get (str "correct_answer") q = Some (JString (str a))).

Definition acceptable (q : pydict) : Prop :=
  has_required q /\ (well_formed_mc q \/ well_formed_tf q).

(** A multiple-choice record with the given options and answer. *)
Definition mc_record (options : list value) (answer : string) : pydict :=
  [(str "question", JString (str "Which one?"));
   (str "options", JArray options);
   (str "correct_answer", JString (str answer));
   (str "type", JString (str "multiple_choice"))].

Definition three_options : list value :=
  [JString (str "one"); JString (str "two"); JString (str "three")].
Definition four_options : list value :=
  [JString (str "one"); JString (str "two"); JString (str "three");
   JString (str "four")].

(** A record of a type the quiz does not know. *)
Definition essay_record : pydict :=
  [(str "question", JString (str "Discuss."));
   (str "correct_answer", JString (str "A"));
   (str "type", JString (str "essay"))].

(** A multiple-choice record whose [options] is not a list. *)
Definition mc_record_with (options : value) : pydict :=
  [(str "question", JString (str "Which one?"));
   (str "options", options);
   (str "correct_answer", JString (str "A"));
   (str "type", JString (str "multiple_choice"))].

(** The type tag and the request of each batch. *)
Definition type_tag (k : kind) : pystr :=
  match k with
  | MultipleChoice => str "multiple_choice"
  | TrueFalse => str "true_false"
  end.

Definition batch_request (k : kind) (text : pystr) (count : Z) (difficulty : pystr)
  : request :=
  {| req_model := gemini_model; req_kind := k; req_count := count;
     req_difficulty := difficulty; req_text := text;
     req_max_output_tokens :=
       match k with MultipleChoice => 8000 | TrueFalse => 6000 end |}.

(** The batch generator of a kind. *)
Definition batch (json_loads : pystr -> result value)
           (generate_content : nat -> request -> response) (k : kind)
  : pystr -> Z -> pystr -> M (list value) :=
  match k with
  | MultipleChoice => _generate_multiple_choice_questions json_loads generate_content
  | TrueFalse => _generate_true_false_questions json_loads generate_content
  end.

(** A generation sub-step of [generate_quiz]: skipped when the sub-count
    is not positive. *)
Definition sub_step (json_loads : pystr -> result value)
           (generate_content : nat -> request -> response) (k : kind)
           (text : pystr) (count : Z) (difficulty : pystr) : M (list value) :=
  if (count >? 0)%Z then batch json_loads generate_content k text count difficulty
  else ret [].

(** The records one attempt recovers: none when the call raises or the
    response has no text. *)
Definition recovered (json_loads : pystr -> result value)
           (question_type : pystr) (resp : response) : list value :=
  match resp with
  | ServiceError => []
  | Response text =>
      if truthy text
      then _extract_json_from_response json_loads
             (match text with Some t => t | None => [] end) question_type
      else []
  end.

(** The type list in effect: the default when none is given. *)
Definition effective_types (question_types : option (list pystr)) : list pystr :=
  match question_types with
  | None => [str "Multiple Choice"; str "True/False"]
  | Some l => l
  end.

(** The smallest exponent of binary64. *)
Definition emin64 : Z := -1074.

(** A service that fails twice and would answer [reply] from the third
    call on. *)
Definition fails_twice (reply : pystr) : nat -> request -> response :=
  fun n _ =>
    match n with
    | O | S O => ServiceError
    | _ => Response (Some reply)
    end.

(** A service that always answers [reply]. *)
Definition always (reply : pystr) : nat -> request -> response :=
  fun _ _ => Response (Some reply).

(** A reply with six true/false records. *)
Definition six_statements : pystr :=
  str "[{'question': 'S1', 'correct_answer': 'True'}, {'question': 'S2', 'correct_answer': 'False'}, {'question': 'S3', 'correct_answer': 'True'}, {'question': 'S4', 'correct_answer': 'False'}, {'question': 'S5', 'correct_answer': 'True'}, {'question': 'S6', 'correct_answer': 'False'}]".

(** A true/false record as the recovery returns it. *)
Definition statement (question answer : string) : value :=
  JObject [(str "question", JString (str question));
           (str "correct_answer", JString (str answer));
           (str "type", JString (str "true_false"))].

(** A scanned PDF: PyPDF2 finds no text in it and [unstructured] is not
    installed. *)
Definition scanned_primary : unit -> extraction := fun _ => Extracted [].
Definition scanned_fallback : unit -> option pystr := fun _ => None.

(** The widgets after the upload, before and at the click on the
    generate button. *)
Definition after_upload (clicked : bool) : widgets unit :=
  {| uploaded_file := Some tt;
     num_questions := 15;
     difficulty_level := str "Medium";
     question_types := [str "Multiple Choice"; str "True/False"];
     api_key := str "key";
     generate_clicked := clicked |}.

(** A service that is down. *)
Definition service_down : nat -> request -> response := fun _ _ => ServiceError.

(** A value [len] accepts. *)
Definition sized (v : value) : bool :=
  match v with
  | JString _ | JArray _ | JObject _ => true
  | _ => false
  end.

(** A record whose type is one of the two known ones and whose
    [options], when present, is a list. *)
Definition well_typed (q : pydict) : Prop :=
  (dict_get (str "type") q = Some (JString (str "multiple_choice"))
   \/ dict_get (str "type") q = Some (JString (str "true_false")))
  /\ (forall o, dict_get (str "options") q = Some o -> is_list o = true).

(** A true/false record that passes the validation. *)
Definition tf_record (answer : string) : pydict :=
  [(str "question", JString (str "The sky is blue."));
   (str "correct_answer", JString (str answer));
   (str "type", JString (str "true_false"))].

Definition not_comma (c : N) : bool := negb (is_char "," c).

(** A bracketed text: an opening bracket, [mid], a closing bracket. *)
Definition bracket_body (mid : pystr) : pystr := cp "[" :: mid ++ [cp "]"].

(** The text is [body] between a part without opening bracket and a part
    without closing bracket. *)
Definition framed (body s : pystr) : Prop :=
  exists pre post, s = pre ++ body ++ post
                   /\ ~ In (cp "[") pre /\ ~ In (cp "]") post.

(** A character that is neither whitespace nor NUL. *)
Definition visible (c : N) : bool := (negb (isspace c) && negb (c =? 0)%N)%bool.

(** A line that [_clean_extracted_text] keeps: more than two characters
    once stripped. *)
Definition kept (line : pystr) : bool := (len (strip line) >? 2)%Z.

(** A word of a cleaned text. *)
Definition clean_word (w : pystr) : Prop :=
  w <> [] /\ Forall (fun c => isspace c = false /\ c <> 0%N) w.

(** A text that starts and ends with a character that is no whitespace. *)
Definition tight (s : pystr) : Prop :=
  (exists c r, s = c :: r /\ isspace c = false)
  /\ (exists c r, s = r ++ [c] /\ isspace c = false).

(** A page that leaves an entry. *)
Definition marked (p : page) : bool :=
  match p with
  | PageText t => (nonempty (strip t) && nonempty (_clean_extracted_text t))%bool
  | PageError => false
  end.

(** The entry of a page with the given number. *)
Definition page_entry (number : Z) (p : page) : pystr :=
  match p with
  | PageText t =>
      str "--- Page " ++ str_of_int number ++ str " ---" ++ [10%N]
          ++ _clean_extracted_text t
  | PageError => []
  end.

(** A file of three pages with three letters each. *)
Definition three_short_pages : unit -> pdf_reader :=
  fun _ => Pages [PageText (str "abc"); PageText (str "def"); PageText (str "ghi")].

(** An upload whose temporary file is written but cannot be removed. *)
Definition temp_written : unit -> pystr + unit := fun _ => inr tt.
Definition unlink_fails : unit -> option pystr :=
  fun _ => Some (str "Permission denied").

(** Stand-ins for [str] and the truth value in the examples of the
    export. *)
Definition str_of_text (v : value) : pystr :=
  match v with
  | JString s => s
  | _ => []
  end.
Definition truth_of_text (v : value) : bool :=
  match v with
  | JString (_ :: _) => true
  | _ => false
  end.

(** A multiple-choice record as the recovery returns it when the reply
    gave no options. *)
Definition mc_without_options : pydict :=
  [(str "question", JString (str "Which one?"));
   (str "correct_answer", JString (str "A"));
   (str "type", JString (str "multiple_choice"))].

(* ===================================================================== *)
(** * Properties *)
(* ===================================================================== *)

(** ** Strings and dictionaries *)

Lemma eqb_refl (a : pystr) : Str.eqb a a = true.
Proof.
  induction a as [|x a IH]; simpl; [reflexivity|].
  now rewrite N.eqb_refl, IH.
Qed.

Lemma eqb_eq (a b : pystr) : Str.eqb a b = true <-> a = b.
Proof.
  split; [|intros ->; apply eqb_refl].
  revert b; induction a as [|x a IH]; intros [|y b]; simpl; try congruence.
  intros H. apply andb_true_iff in H as [Hx Hab].
  apply N.eqb_eq in Hx. f_equal; auto.
Qed.

Lemma find_range (a : ascii) (s : pystr) :
  (find a s = -1 \/ 0 <= find a s < len s)%Z.
Proof.
  unfold len. induction s as [|c r IH]; simpl; [now left|].
  destruct (is_char a c); [right; lia|].
  destruct (Z.ltb_spec (find a r) 0); [now left|right; lia].
Qed.

Lemma find_hit (a : ascii) (s : pystr) :
  (0 <= find a s)%Z -> nth_error s (Z.to_nat (find a s)) = Some (cp a).
Proof.
  induction s as [|c r IH]; simpl; [lia|].
  destruct (is_char a c) eqn:E.
  - intros _. simpl. apply N.eqb_eq in E. now subst.
  - destruct (Z.ltb_spec (find a r) 0) as [Hn|Hp]; [lia|]. intros _.
    replace (Z.to_nat (find a r + 1)) with (S (Z.to_nat (find a r))) by lia.
    simpl. now apply IH.
Qed.

Lemma find_first (a : ascii) (s : pystr) (i : nat) :
  nth_error s i = Some (cp a) -> (0 <= find a s <= Z.of_nat i)%Z.
Proof.
  revert i; induction s as [|c r IH]; intros [|i]; simpl; try discriminate.
  - intros [= ->]. unfold is_char. rewrite N.eqb_refl. lia.
  - intros H. destruct (is_char a c); [lia|].
    specialize (IH _ H). destruct (Z.ltb_spec (find a r) 0); lia.
Qed.

Lemma rfind_range (a : ascii) (s : pystr) :
  (rfind a s = -1 \/ 0 <= rfind a s < len s)%Z.
Proof.
  unfold len. induction s as [|c r IH]; simpl; [now left|].
  destruct (Z.leb_spec 0 (rfind a r)); [right; lia|].
  destruct (is_char a c); [right; lia|now left].
Qed.

Lemma rfind_hit (a : ascii) (s : pystr) :
  (0 <= rfind a s)%Z -> nth_error s (Z.to_nat (rfind a s)) = Some (cp a).
Proof.
  induction s as [|c r IH]; simpl; [lia|].
  destruct (Z.leb_spec 0 (rfind a r)) as [Hp|Hn].
  - intros _.
    replace (Z.to_nat (rfind a r + 1)) with (S (Z.to_nat (rfind a r))) by lia.
    simpl. now apply IH.
  - destruct (is_char a c) eqn:E; [|lia].
    intros _. simpl. apply N.eqb_eq in E. now subst.
Qed.

Lemma rfind_last (a : ascii) (s : pystr) (j : nat) :
  nth_error s j = Some (cp a) -> (Z.of_nat j <= rfind a s)%Z.
Proof.
  revert j; induction s as [|c r IH]; intros [|j]; simpl; try discriminate.
  - intros [= ->]. unfold is_char. rewrite N.eqb_refl.
    destruct (Z.leb_spec 0 (rfind a r)); lia.
  - intros H. specialize (IH _ H).
    destruct (Z.leb_spec 0 (rfind a r)); lia.
Qed.

(** The guard of line 37 holds exactly on bracketed texts. *)
Lemma guard_bracketed (text : pystr) :
  (negb (find "[" text =? -1)%Z && (rfind "]" text + 1 >? find "[" text)%Z)%bool = true
  <-> bracketed text.
Proof.
  rewrite andb_true_iff, negb_true_iff, Z.eqb_neq, Z.gtb_ltb, Z.ltb_lt.
  split.
  - intros [Hs He].
    destruct (find_range "[" text) as [|Hf]; [congruence|].
    assert (Hr : (0 <= rfind "]" text)%Z) by lia.
    pose proof (find_hit "[" text (proj1 Hf)) as H1.
    pose proof (rfind_hit "]" text Hr) as H2.
    exists (Z.to_nat (find "[" text)), (Z.to_nat (rfind "]" text)).
    repeat split; auto.
    assert (find "[" text <> rfind "]" text) by (intros E; rewrite E, H2 in H1; revert H1; vm_compute; discriminate).
    lia.
  - intros (i & j & Hij & Hi & Hj).
    pose proof (find_first _ _ _ Hi). pose proof (rfind_last _ _ _ Hj). lia.
Qed.

Lemma bracketed_In (s : pystr) :
  bracketed s -> In (cp "[") s /\ In (cp "]") s.
Proof.
  intros (i & j & _ & Hi & Hj). split; eapply nth_error_In; eauto.
Qed.

Lemma dict_get_set_same {V} (k : pystr) (v : V) (d : dict V) :
  dict_get k (dict_set k v d) = Some v.
Proof.
  induction d as [|[k' v'] r IH]; simpl.
  - now rewrite eqb_refl.
  - destruct (Str.eqb k' k) eqn:E; simpl; rewrite E; auto.
Qed.

Lemma dict_get_set_other {V} (k k0 : pystr) (v : V) (d : dict V) :
  k0 <> k -> dict_get k0 (dict_set k v d) = dict_get k0 d.
Proof.
  intros Hne. induction d as [|[k' v'] r IH]; simpl.
  - destruct (Str.eqb k k0) eqn:E; [apply eqb_eq in E; congruence|reflexivity].
  - destruct (Str.eqb k' k) eqn:E; simpl.
    + destruct (Str.eqb k' k0) eqn:E0; auto.
      apply eqb_eq in E, E0. congruence.
    + now rewrite IH.
Qed.

Lemma dict_has_set {V} (k k0 : pystr) (v : V) (d : dict V) :
  dict_has k0 d = true -> dict_has k0 (dict_set k v d) = true.
Proof.
  unfold dict_has. destruct (eqb_eq k0 k) as [_ Heq].
  destruct (list_eq_dec N.eq_dec k0 k) as [->|Hne].
  - now rewrite dict_get_set_same.
  - now rewrite dict_get_set_other.
Qed.

(** ** Response recovery *)

Section Recovery.

Variable json_loads : pystr -> result value.

Lemma valid_questions_filter (question_type : pystr) (l : list value) :
  valid_questions question_type l = map (tag question_type) (filter is_question l).
Proof.
  induction l as [|q l IH]; simpl; [reflexivity|].
  destruct q; simpl; auto.
  destruct (dict_has (str "question") d && dict_has (str "correct_answer") d)%bool;
    simpl; now rewrite IH.
Qed.

Lemma valid_questions_tagged (question_type : pystr) (l : list value) :
  Forall (tagged_question question_type) (valid_questions question_type l).
Proof.
  induction l as [|q l IH]; simpl; [constructor|].
  destruct q; auto.
  destruct (dict_has (str "question") d && dict_has (str "correct_answer") d)%bool
    eqn:E; auto.
  apply andb_true_iff in E as [Hq Ha].
  constructor; auto.
  exists (dict_set (str "type") (JString question_type) d).
  repeat split; auto using dict_has_set, dict_get_set_same.
Qed.

(** What the function computes, branch by branch. *)
Lemma extract_cases (response_text question_type : pystr) :
  let text := clean_response response_text in
  _extract_json_from_response json_loads response_text question_type =
  if (negb (find "[" text =? -1)%Z && (rfind "]" text + 1 >? find "[" text)%Z)%bool
  then
    match json_loads (array_text text) with
    | Ok (JArray l) => valid_questions question_type l
    | Ok _ => []
    | Raise JSONDecodeError =>
        match json_loads (fix_json (array_text text)) with
        | Ok (JArray l) => valid_questions question_type l
        | _ => []
        end
    | Raise _ => []
    end
  else [].
Proof.
  unfold _extract_json_from_response, extract_body, array_text. cbv zeta.
  destruct (negb _ && _)%bool; [|reflexivity].
  destruct (json_loads (slice _ _ _)) as [[]|[]]; try reflexivity.
  destruct (json_loads (fix_json _)) as [[]|[]]; reflexivity.
Qed.

(** C1. [_extract_json_from_response] never raises: whatever exception
    its body ends with, the function answers the empty list. A text
    that, once cleaned, has no opening bracket followed later by a
    closing bracket gives the empty list, and so does a text whose
    bracketed part fails to parse both before and after the repair. *)
Theorem extract_never_raises (response_text question_type : pystr) :
  let text := clean_response response_text in
  (forall e, extract_body json_loads response_text question_type = Raise e ->
             _extract_json_from_response json_loads response_text question_type = [])
  /\ (~ bracketed text ->
      _extract_json_from_response json_loads response_text question_type = [])
  /\ (json_loads (array_text text) = Raise JSONDecodeError ->
      (forall v, json_loads (fix_json (array_text text)) <> Ok v) ->
      _extract_json_from_response json_loads response_text question_type = []).
Proof.
  intros text. split; [|split].
  - intros e He. unfold _extract_json_from_response. now rewrite He.
  - intros Hnb. rewrite extract_cases. fold text.
    destruct (negb _ && _)%bool eqn:G; [|reflexivity].
    apply guard_bracketed in G. contradiction.
  - intros H1 H2. rewrite extract_cases. fold text.
    destruct (negb _ && _)%bool; [|reflexivity].
    rewrite H1.
    destruct (json_loads (fix_json (array_text text))) as [v|e] eqn:E.
    + now destruct (H2 v).
    + reflexivity.
Qed.

(** C10. Every element that [_extract_json_from_response] returns is a
    mapping with the keys [question] and [correct_answer] whose [type]
    is the expected tag. The list is the array the code parsed, in its
    order, without the elements that are no mapping or miss one of the
    two keys, each kept one tagged: the array of the strict parse when
    that succeeds, the array of the parse after the repair when the
    strict parse fails to decode; a list that is not empty never comes
    from anything else. *)
Theorem extract_elements_tagged (response_text question_type : pystr) :
  let text := clean_response response_text in
  let out := _extract_json_from_response json_loads response_text question_type in
  Forall (tagged_question question_type) out
  /\ (forall parsed,
        bracketed text ->
        json_loads (array_text text) = Ok (JArray parsed) ->
        out = map (tag question_type) (filter is_question parsed))
  /\ (forall parsed,
        bracketed text ->
        json_loads (array_text text) = Raise JSONDecodeError ->
        json_loads (fix_json (array_text text)) = Ok (JArray parsed) ->
        out = map (tag question_type) (filter is_question parsed))
  /\ (out <> [] ->
      exists parsed,
        bracketed text
        /\ out = map (tag question_type) (filter is_question parsed)
        /\ (json_loads (array_text text) = Ok (JArray parsed)
            \/ (json_loads (array_text text) = Raise JSONDecodeError
                /\ json_loads (fix_json (array_text text)) = Ok (JArray parsed))))
  /\ (forall q, is_question q = true <->
                exists d, q = JObject d
                          /\ dict_has (str "question") d = true
                          /\ dict_has (str "correct_answer") d = true).
Proof.
  intros text out. subst out. rewrite extract_cases. fold text.
  split; [|split; [|split; [|split]]].
  - destruct (negb _ && _)%bool; [|constructor].
    destruct (json_loads (array_text text)) as [[]|[]];
      auto using valid_questions_tagged.
    destruct (json_loads (fix_json (array_text text))) as [[]|[]];
      auto using valid_questions_tagged.
  - intros parsed Hb H1. apply guard_bracketed in Hb.
    rewrite Hb, H1. apply valid_questions_filter.
  - intros parsed Hb H1 H2. apply guard_bracketed in Hb.
    rewrite Hb, H1, H2. apply valid_questions_filter.
  - destruct (negb _ && _)%bool eqn:G; [|intros H; now destruct H].
    apply guard_bracketed in G.
    destruct (json_loads (array_text text)) as [[| | | | |l|]|[]] eqn:E1;
      try (intros H; now destruct H).
    + intros _. exists l. auto using valid_questions_filter.
    + destruct (json_loads (fix_json (array_text text)))
        as [[| | | | |l|]|[]] eqn:E2;
        try (intros H; now destruct H).
      intros _. exists l. auto using valid_questions_filter.
  - intros q. split.
    + destruct q; try discriminate. simpl. intros H.
      apply andb_true_iff in H as [Hq Ha]. eauto.
    + intros (d & -> & Hq & Ha). simpl. now rewrite Hq, Ha.
Qed.

(** A strict parse that ends with another exception than the decoding
    error leaves the function through its outer handler. *)
Lemma repair_skipped (response_text question_type : pystr) (e : exn) :
  json_loads (array_text (clean_response response_text)) = Raise e ->
  e <> JSONDecodeError ->
  _extract_json_from_response json_loads response_text question_type = [].
Proof.
  intros H1 He. rewrite extract_cases. cbv zeta.
  destruct (negb _ && _)%bool; [|reflexivity].
  rewrite H1. destruct e; try reflexivity. now destruct He.
Qed.

(** The repair pass, for any decoder. *)
Lemma repair_applied (response_text question_type : pystr) :
  let text := clean_response response_text in
  bracketed text ->
  json_loads (array_text text) = Raise JSONDecodeError ->
  _extract_json_from_response json_loads response_text question_type =
  match json_loads (sub_trailing_commas None
                      (replace (cp "'") DQUOTE (array_text text))) with
  | Ok (JArray l) => valid_questions question_type l
  | _ => []
  end.
Proof.
  intros text Hb H1. rewrite extract_cases. fold text.
  apply guard_bracketed in Hb. rewrite Hb, H1. reflexivity.
Qed.

End Recovery.

(** C6. When the strict parse of the bracketed part fails with the
    decoding error, the recovery parses it again after replacing every
    single quote by a double quote and dropping each comma that only
    whitespace separates from a closing brace or bracket. When the strict
    parse ends with any other exception, no repair runs and the result is
    the empty list. On the sample reply the strict parse fails to decode,
    the repaired text is the reply without its trailing comma and with
    double quotes, and exactly one record comes out. *)
Theorem repair_pass :
  (forall json_loads response_text question_type,
      let text := clean_response response_text in
      bracketed text ->
      json_loads (array_text text) = Raise JSONDecodeError ->
      _extract_json_from_response json_loads response_text question_type =
      match json_loads (sub_trailing_commas None
                          (replace (cp "'") DQUOTE (array_text text))) with
      | Ok (JArray l) => valid_questions question_type l
      | _ => []
      end)
  /\ (forall json_loads response_text question_type e,
        json_loads (array_text (clean_response response_text)) = Raise e ->
        e <> JSONDecodeError ->
        _extract_json_from_response json_loads response_text question_type = [])
  /\ Json.loads (array_text (clean_response sample_reply)) = Raise JSONDecodeError
  /\ replace DQUOTE (cp "'") (fix_json (array_text (clean_response sample_reply)))
     = str "[{'question': 'Q?', 'correct_answer': 'A'}]"
  /\ _extract_json_from_response Json.loads sample_reply (str "multiple_choice")
     = [JObject [(str "question", JString (str "Q?"));
                 (str "correct_answer", JString (str "A"));
                 (str "type", JString (str "multiple_choice"))]].
Proof.
  split; [exact repair_applied|].
  split; [exact repair_skipped|].
  repeat split; vm_compute; reflexivity.
Qed.

Lemma sample_reply_bracketed : bracketed (clean_response sample_reply).
Proof. apply guard_bracketed. vm_compute. reflexivity. Qed.

Lemma repair_pass_witness :
  _extract_json_from_response Json.loads sample_reply (str "true_false") =
  match Json.loads (sub_trailing_commas None
                      (replace (cp "'") DQUOTE
                         (array_text (clean_response sample_reply)))) with
  | Ok (JArray l) => valid_questions (str "true_false") l
  | _ => []
  end
  /\ _extract_json_from_response Json.loads deep_reply (str "true_false") = [].
Proof.
  split.
  - apply (proj1 repair_pass Json.loads sample_reply (str "true_false")).
    + exact sample_reply_bracketed.
    + vm_compute. reflexivity.
  - apply (proj1 (proj2 repair_pass) Json.loads deep_reply (str "true_false")
             RecursionError).
    + vm_compute. reflexivity.
    + discriminate.
Defined.

(** A reply whose strict parse ends with [RecursionError]: the brackets
    nest too deep. No repair runs and nothing is returned, although in
    the repaired text the brackets lie inside a string and the parse of
    it gives one record. *)
Lemma repair_skipped_on_deep_nesting :
  bracketed (clean_response deep_reply)
  /\ Json.loads (array_text (clean_response deep_reply)) = Raise RecursionError
  /\ _extract_json_from_response Json.loads deep_reply (str "multiple_choice") = []
  /\ match Json.loads (sub_trailing_commas None
                         (replace (cp "'") DQUOTE
                            (array_text (clean_response deep_reply)))) with
     | Ok (JArray l) => valid_questions (str "multiple_choice") l
     | _ => []
     end
     = [JObject [(str "question", JString (str "Q?"));
                 (str "correct_answer", JString (str "A"));
                 (str "type", JString (str "multiple_choice"))]].
Proof.
  split; [apply guard_bracketed; vm_compute; reflexivity|].
  repeat split; vm_compute; reflexivity.
Qed.

Lemma mixed_reply_bracketed : bracketed (clean_response mixed_reply).
Proof. apply guard_bracketed. vm_compute. reflexivity. Qed.

Lemma extract_elements_tagged_witness :
  _extract_json_from_response Json.loads mixed_reply (str "true_false")
  = map (tag (str "true_false"))
        (filter is_question
           [JObject [(str "question", JString (str "Q?"));
                     (str "correct_answer", JString (str "A"))];
            JInt 7;
            JObject [(str "question", JString (str "R?"))];
            JObject [(str "correct_answer", JString (str "B"));
                     (str "question", JString (str "S?"))]]).
Proof.
  apply (proj1 (proj2 (proj2 (extract_elements_tagged Json.loads mixed_reply
                                (str "true_false"))))).
  - exact mixed_reply_bracketed.
  - vm_compute. reflexivity.
  - vm_compute. reflexivity.
Defined.

Lemma plain_prose_not_bracketed :
  ~ bracketed (clean_response (str "Sorry, I cannot help with that.")).
Proof.
  intros H. apply bracketed_In in H as [H _].
  vm_compute in H.
  repeat (destruct H as [H|H]; [discriminate H|]). exact H.
Qed.

Lemma extract_never_raises_witness :
  _extract_json_from_response Json.loads (str "Sorry, I cannot help with that.")
                              (str "multiple_choice") = [].
Proof.
  apply (proj1 (proj2 (extract_never_raises Json.loads
                         (str "Sorry, I cannot help with that.")
                         (str "multiple_choice")))).
  exact plain_prose_not_bracketed.
Defined.

(** ** Schema validation *)

Lemma eq_str_spec (v : value) (s : string) :
  eq_str v s = true <-> v = JString (str s).
Proof.
  destruct v; simpl; try (split; [discriminate|intros [=]]).
  rewrite eqb_eq. split; [now intros ->|now intros [= ->]].
Qed.

Lemma in_strs_spec (v : value) (l : list string) :
  in_strs v l = true <-> exists a, In a l /\ v = JString (str a).
Proof.
  unfold in_strs. rewrite existsb_exists.
  split; intros (a & Ha & H); exists a; (split; [exact Ha|]); now apply eq_str_spec.
Qed.

Lemma dict_has_get {V} (k : pystr) (d : dict V) :
  dict_has k d = true <-> exists v, dict_get k d = Some v.
Proof.
  unfold dict_has. destruct (dict_get k d); split; eauto; try discriminate.
  intros [v [=]].
Qed.

Lemma mc_not_tf : str "multiple_choice" <> str "true_false".
Proof. vm_compute. discriminate. Qed.

Ltac absurd_tag :=
  match goal with
  | H : Some (JString (str ?a)) = Some (JString (str ?b)) |- _ =>
      exfalso; revert H; vm_compute; discriminate
  end.

Ltac refuse := exists false; split; [reflexivity|]; split; [discriminate|].

Lemma validate_question_data_spec (q : pydict) :
  exists b, validate_question_data q = Ok b /\ (b = true <-> acceptable q).
Proof.
  unfold validate_question_data, required_fields, acceptable, has_required,
    well_formed_mc, well_formed_tf, dict_index, dict_has.
  cbn [forallb].
  destruct (dict_get (str "question") q) as [vq|] eqn:Eq;
    [|refuse; intros [(H & _) _]; discriminate].
  destruct (dict_get (str "correct_answer") q) as [va|] eqn:Ea;
    [|refuse; intros [(_ & H & _) _]; discriminate].
  destruct (dict_get (str "type") q) as [vt|] eqn:Et;
    [|refuse; intros [(_ & _ & H) _]; discriminate].
  cbn [andb negb rbind].
  destruct (eq_str vt "multiple_choice") eqn:Emc.
  - apply eq_str_spec in Emc. subst vt.
    destruct (dict_get (str "options") q) as [vo|] eqn:Eo; cbn [negb rbind].
    2:{ refuse. intros [_ [(_ & (o & Ho & _) & _)|(Ht & _)]];
          [discriminate|absurd_tag]. }
    destruct (is_list vo) eqn:El; cbn [negb rbind].
    2:{ refuse. intros [_ [(_ & (o & Ho & _) & _)|(Ht & _)]]; [|absurd_tag].
        injection Ho as ->. discriminate. }
    destruct vo; try discriminate. cbn [py_len rbind].
    destruct (Z.eqb_spec (Z.of_nat (List.length items)) 4) as [H4|H4]; cbn [negb].
    2:{ refuse. intros [_ [(_ & (o & Ho & Hl) & _)|(Ht & _)]]; [|absurd_tag].
        injection Ho as <-. lia. }
    destruct (in_strs va ["A"; "B"; "C"; "D"]%string) eqn:Ein; cbn [negb].
    + exists true. split; [reflexivity|]. split; [|reflexivity]. intros _.
      apply in_strs_spec in Ein as (a & Ha & ->).
      split; [auto|]. left. repeat split; eauto.
      exists items. split; [reflexivity|lia].
    + refuse. intros [_ [(_ & _ & (a & Ha & Hv))|(Ht & _)]]; [|absurd_tag].
      injection Hv as ->.
      assert (in_strs (JString (str a)) ["A"; "B"; "C"; "D"]%string = true)
        by (apply in_strs_spec; eauto).
      congruence.
  - destruct (eq_str vt "true_false") eqn:Etf.
    + apply eq_str_spec in Etf. subst vt.
      destruct (in_strs va ["True"; "False"]%string) eqn:Ein; cbn [negb].
      * exists true. split; [reflexivity|]. split; [|reflexivity]. intros _.
        apply in_strs_spec in Ein as (a & Ha & ->).
        split; [auto|]. right. split; eauto.
      * refuse. intros [_ [(Ht & _)|(_ & (a & Ha & Hv))]]; [absurd_tag|].
        injection Hv as ->.
        assert (in_strs (JString (str a)) ["True"; "False"]%string = true)
          by (apply in_strs_spec; eauto).
        congruence.
    + refuse. intros [_ [(Ht & _)|(Ht & _)]]; injection Ht as ->.
      * vm_compute in Emc. discriminate.
      * vm_compute in Etf. discriminate.
Qed.

(** C7. [validate_question_data] accepts a record exactly when it has the
    fields [question], [correct_answer] and [type] and is either a
    [multiple_choice] record whose [options] is a list of four entries and
    whose answer is one of A, B, C, D, or a [true_false] record whose
    answer is [True] or [False]; every other record, any other [type]
    among them, is refused. Three options are refused, four options with
    answer E are refused, four options with answer B are accepted. *)
Theorem validate_question_data_iff (q : pydict) :
  (validate_question_data q = Ok true <-> acceptable q)
  /\ (validate_question_data q = Ok false <-> ~ acceptable q)
  /\ validate_question_data (mc_record three_options "B") = Ok false
  /\ validate_question_data (mc_record four_options "E") = Ok false
  /\ validate_question_data (mc_record four_options "B") = Ok true.
Proof.
  destruct (validate_question_data_spec q) as (b & -> & Hb).
  split; [|split; [|repeat split; vm_compute; reflexivity]].
  - split.
    + intros [= ->]. now apply Hb.
    + intros H. f_equal. now apply Hb.
  - split.
    + intros [= ->] H. apply Hb in H. discriminate.
    + intros H. destruct b; [|reflexivity]. destruct H. now apply Hb.
Qed.

Lemma validate_question_data_iff_witness :
  validate_question_data (mc_record four_options "C") = Ok true.
Proof.
  apply (proj2 (proj1 (validate_question_data_iff (mc_record four_options "C")))).
  split; [repeat split; reflexivity|].
  left. split; [reflexivity|]. split.
  - exists four_options. split; reflexivity.
  - exists "C"%string. split; [simpl; tauto|reflexivity].
Defined.

(** C8. The two validators are not the same function on single records:
    [validate_quiz_data] lets a record of an unknown type pass and takes
    any four-element [options] value for a list, where
    [validate_question_data] refuses both; on [options] without a length
    it raises. *)
Theorem validators_differ :
  validate_quiz_data [essay_record] = Ok true
  /\ validate_question_data essay_record = Ok false
  /\ validate_quiz_data [mc_record_with (JString (str "abcd"))] = Ok true
  /\ validate_question_data (mc_record_with (JString (str "abcd"))) = Ok false
  /\ validate_quiz_data [mc_record_with (JInt 4)] = Raise TypeError
  /\ validate_question_data (mc_record_with (JInt 4)) = Ok false.
Proof. repeat split; vm_compute; reflexivity. Qed.


(** ** Binary64 rounding *)

Section FloatBounds.

Local Open Scope Z_scope.

Lemma digits2_bounds (p : positive) :
2 ^ (Zpos (digits2_pos p) - 1) <= Zpos p < 2 ^ Zpos (digits2_pos p).
Proof.
induction p as [p IH|p IH|]; simpl digits2_pos.
- rewrite Pos2Z.inj_succ.
  replace (Z.succ (Zpos (digits2_pos p)) - 1) with (Z.succ (Zpos (digits2_pos p) - 1)) by lia.
  rewrite !Z.pow_succ_r by lia. lia.
- rewrite Pos2Z.inj_succ.
  replace (Z.succ (Zpos (digits2_pos p)) - 1) with (Z.succ (Zpos (digits2_pos p) - 1)) by lia.
  rewrite !Z.pow_succ_r by lia. lia.
- simpl. lia.
Qed.

Lemma digits2_unique (p : positive) (k : Z) :
2 ^ (k - 1) <= Zpos p < 2 ^ k -> Zpos (digits2_pos p) = k.
Proof.
intros [Hl Hu]. pose proof (digits2_bounds p) as [Dl Du].
assert (0 < k).
{ destruct (Z.ltb_spec 0 k); [assumption|].
  assert (2 ^ k <= 2 ^ 0) by (destruct (Z.eq_dec k 0) as [->|]; [lia|rewrite Z.pow_neg_r; simpl; lia]).
  simpl in *. lia. }
destruct (Z.lt_trichotomy (Zpos (digits2_pos p)) k) as [Hlt|[Heq|Hgt]]; [|assumption|].
- assert (2 ^ Zpos (digits2_pos p) <= 2 ^ (k - 1)) by (apply Z.pow_le_mono_r; lia). lia.
- assert (2 ^ k <= 2 ^ (Zpos (digits2_pos p) - 1)) by (apply Z.pow_le_mono_r; lia). lia.
Qed.

Lemma shr_1_m (mrs : shr_record) :
0 <= shr_m mrs -> shr_m (shr_1 mrs) = shr_m mrs / 2.
Proof.
destruct mrs as [m r s]. cbn [shr_m]. intros Hm.
destruct m as [|[p|p|]|p]; try lia; cbn [shr_1 shr_m].
- reflexivity.
- apply Z.div_unique with 1; lia.
- apply Z.div_unique with 0; lia.
- reflexivity.
Qed.

Lemma iter_shr_m (n : positive) (mrs : shr_record) :
0 <= shr_m mrs -> shr_m (iter_pos shr_1 n mrs) = shr_m mrs / 2 ^ Zpos n.
Proof.
revert mrs. induction n as [n IH|n IH|]; intros mrs Hm; simpl iter_pos.
- assert (H1 : 0 <= shr_m (shr_1 mrs)) by (rewrite shr_1_m by lia; apply Z.div_pos; lia).
  assert (H2 : 0 <= shr_m (iter_pos shr_1 n (shr_1 mrs)))
    by (rewrite IH by lia; apply Z.div_pos; lia).
  rewrite IH, IH, shr_1_m by lia.
  rewrite !Z.div_div by lia. f_equal.
  replace (Zpos n~1) with (1 + Zpos n + Zpos n) by lia.
  rewrite !Z.pow_add_r by lia. change (2 ^ 1) with 2. ring.
- assert (H2 : 0 <= shr_m (iter_pos shr_1 n mrs))
    by (rewrite IH by lia; apply Z.div_pos; lia).
  rewrite IH, IH by lia. rewrite Z.div_div by lia. f_equal.
  replace (Zpos n~0) with (Zpos n + Zpos n) by lia.
  rewrite Z.pow_add_r by lia. ring.
- rewrite shr_1_m by lia. reflexivity.
Qed.

Lemma round_nearest_even_range (m : Z) (l : location) :
m <= round_nearest_even m l <= m + 1.
Proof.
unfold round_nearest_even. destruct l as [|[]]; try lia.
destruct (Z.even m); lia.
Qed.

Lemma shr_m_spec (m e n : Z) (l : location) :
0 <= m ->
let '(mrs, e') := shr (shr_record_of_loc m l) e n in
shr_m mrs = m / 2 ^ Z.max 0 n /\ e' = e + Z.max 0 n.
Proof.
intros Hm. unfold shr.
assert (Hl : shr_m (shr_record_of_loc m l) = m) by (destruct l as [|[]]; reflexivity).
destruct n as [|n|n].
- simpl Z.max. rewrite Z.pow_0_r, Z.div_1_r. split; [assumption|lia].
- rewrite iter_shr_m by lia. rewrite Hl. rewrite Z.max_r by lia. split; reflexivity.
- rewrite Z.max_l by lia. rewrite Z.pow_0_r, Z.div_1_r. split; [assumption|lia].
Qed.

(** Rounding a positive mantissa of at least 53 bits in the normal range:
  the result is finite and exceeds the exact value by at most one unit
  of the dropped bits. *)
Lemma binary_round_aux_bound (P : positive) (e : Z) :
let d := Zpos (digits2_pos P) in
53 <= d -> emin64 <= e -> e + (d - 53) + 1 <= 971 ->
exists m2 e2,
  binary_round_aux 53 1024 false (Zpos P) e loc_Exact = S754_finite false m2 e2
  /\ e <= e2 <= e + (d - 53) + 1
  /\ Zpos m2 < 2 ^ 53
  /\ Zpos m2 * 2 ^ (e2 - e) <= Zpos P + 2 ^ (d - 53).
Proof.
intros d Hd He Hmax.
pose proof (digits2_bounds P) as [Pl Pu]. fold d in Pl, Pu.
unfold binary_round_aux, shr_fexp.
change (Zdigits2 (Zpos P)) with d. clearbody d.
remember (d - 53) as n eqn:En.
assert (Hf : fexp 53 1024 (d + e) - e = n).
{ unfold fexp, emin. change (3 - 1024 - 53) with emin64. unfold emin64 in *. lia. }
rewrite Hf.
pose proof (shr_m_spec (Zpos P) e n loc_Exact ltac:(lia)) as H1.
destruct (shr (shr_record_of_loc (Zpos P) loc_Exact) e n) as [mrs1 e1].
destruct H1 as [Hm1 He1]. rewrite Z.max_r in Hm1, He1 by lia.
remember (Zpos P / 2 ^ n) as q eqn:Eq.
assert (Hpn : 0 < 2 ^ n) by (apply Z.pow_pos_nonneg; lia).
assert (Hsplit : 2 ^ (d - 1) = 2 ^ 52 * 2 ^ n /\ 2 ^ d = 2 ^ 53 * 2 ^ n).
{ split; rewrite <- Z.pow_add_r by lia; f_equal; lia. }
destruct Hsplit as [S1 S2].
assert (Hq : 2 ^ 52 <= q < 2 ^ 53).
{ subst q. split.
  - apply Z.div_le_lower_bound; lia.
  - apply Z.div_lt_upper_bound; lia. }
assert (Hqn : q * 2 ^ n <= Zpos P).
{ subst q. rewrite Z.mul_comm. apply Z.mul_div_le. lia. }
pose proof (round_nearest_even_range (shr_m mrs1) (loc_of_shr_record mrs1)) as Hr.
destruct (round_nearest_even (shr_m mrs1) (loc_of_shr_record mrs1))
  as [|p1|p1]; try lia.
destruct (Z.eq_dec (Zpos p1) (2 ^ 53)) as [Htop|Hntop].
- (* the rounding carried into a 54th bit *)
  assert (Hdg : Zpos (digits2_pos p1) = 54)
    by (apply digits2_unique; rewrite Htop; simpl; lia).
  change (Zdigits2 (Zpos p1)) with (Zpos (digits2_pos p1)). rewrite Hdg.
  assert (Hf2 : fexp 53 1024 (54 + e1) - e1 = 1).
  { unfold fexp, emin. change (3 - 1024 - 53) with emin64. unfold emin64 in *. lia. }
  rewrite Hf2.
  pose proof (shr_m_spec (Zpos p1) e1 1 loc_Exact ltac:(lia)) as H2.
  destruct (shr (shr_record_of_loc (Zpos p1) loc_Exact) e1 1) as [mrs2 e2].
  destruct H2 as [Hm2 He2]. rewrite Htop in Hm2. simpl Z.max in *.
  change (2 ^ 53 / 2 ^ 1) with (2 ^ 52) in Hm2. rewrite Hm2.
  change (2 ^ 52) with (Zpos (2 ^ 52)%positive).
  cbv iota.
  destruct (Z.leb_spec e2 (1024 - 53)); [|lia].
  exists (2 ^ 52)%positive, e2. split; [reflexivity|]. split; [lia|].
  split; [reflexivity|].
  replace (e2 - e) with (n + 1) by lia.
  rewrite Z.pow_add_r by lia. change (Zpos (2 ^ 52)) with (2 ^ 52).
  change (2 ^ 1) with 2.
  assert (q + 1 = 2 ^ 53) by lia.
  assert ((q + 1) * 2 ^ n <= Zpos P + 2 ^ n) by lia.
  replace (2 ^ 52 * (2 ^ n * 2)) with (2 ^ 53 * 2 ^ n) by (change (2^53) with (2^52 * 2); ring).
  lia.
- assert (Hdg : Zpos (digits2_pos p1) = 53)
    by (apply digits2_unique; simpl Z.sub; lia).
  change (Zdigits2 (Zpos p1)) with (Zpos (digits2_pos p1)). rewrite Hdg.
  assert (Hf2 : fexp 53 1024 (53 + e1) - e1 = 0).
  { unfold fexp, emin. change (3 - 1024 - 53) with emin64. unfold emin64 in *. lia. }
  rewrite Hf2.
  cbn [shr shr_record_of_loc shr_m].
  destruct (Z.leb_spec e1 (1024 - 53)); [|lia].
  exists p1, e1. split; [reflexivity|]. split; [lia|].
  split; [lia|].
  replace (e1 - e) with n by lia.
  assert (Zpos p1 * 2 ^ n <= (q + 1) * 2 ^ n) by (apply Z.mul_le_mono_nonneg_r; lia).
  lia.
Qed.

Lemma shift_left_value (p s : positive) :
Zpos (Pos.iter xO p s) = Zpos p * 2 ^ Zpos s.
Proof.
change (Pos.iter xO p s) with (shift_pos s p).
rewrite shift_pos_correct, Zpower_pos_nat, Zpower_nat_Z, positive_nat_Z. ring.
Qed.

(** [float(n)] for a positive [n] below [2^1022]: finite, not below the
  53-bit scale, and above [n] by at most one part in [2^52]. *)
Lemma of_int_bound (p : positive) :
Zpos p < 2 ^ 1022 ->
exists m e k,
  PyFloat.of_int (Zpos p) = Ok (S754_finite false m e)
  /\ 0 <= k <= 52 /\ - k <= e <= 970
  /\ Zpos m < 2 ^ 53
  /\ 2 ^ 52 * (Zpos m * 2 ^ (e + k)) <= (2 ^ 52 + 1) * (Zpos p * 2 ^ k).
Proof.
intros Hp.
pose proof (digits2_bounds p) as [Dl Du].
remember (Zpos (digits2_pos p)) as d eqn:Ed.
assert (Hd1 : 1 <= d) by (subst d; lia).
assert (Hd2 : d <= 1022).
{ destruct (Z.leb_spec d 1022); [assumption|].
  assert (2 ^ 1022 <= 2 ^ (d - 1)) by (apply Z.pow_le_mono_r; lia). lia. }
unfold PyFloat.of_int, binary_normalize, binary_round, PyFloat.prec, PyFloat.emax.
rewrite Z.add_0_r, <- Ed.
assert (Hf : fexp 53 1024 d = Z.max (d - 53) emin64) by reflexivity.
unfold shl_align.
destruct (Z.leb_spec 53 d) as [Hbig|Hsmall].
- (* at least 53 bits: the mantissa is rounded *)
  rewrite Hf, Z.max_l by (unfold emin64; lia).
  assert (Hsh : (p, 0) = match d - 53 - 0 with Zneg s => (Pos.iter xO p s, d - 53) | _ => (p, 0) end)
    by (destruct (d - 53 - 0) eqn:E; try reflexivity; lia).
  rewrite <- Hsh.
  destruct (binary_round_aux_bound p 0) as (m & e & Hr & He & Hm & Hv);
    rewrite <- ?Ed; unfold emin64; try lia.
  rewrite <- Ed in He, Hv.
  rewrite Hr. exists m, e, 0. split; [reflexivity|].
  split; [lia|]. split; [lia|]. split; [exact Hm|].
  rewrite Z.add_0_r, Z.sub_0_r in *. rewrite Z.pow_0_r, Z.mul_1_r.
  assert (2 ^ 52 * 2 ^ (d - 53) = 2 ^ (d - 1))
    by (rewrite <- Z.pow_add_r by lia; f_equal; lia).
  nia.
- (* fewer than 53 bits: the mantissa is shifted up, nothing is lost *)
  rewrite Hf, Z.max_l by (unfold emin64; lia).
  destruct (d - 53 - 0) as [|s|s] eqn:Es; try lia.
  assert (Hs : Zpos s = 53 - d) by lia.
  pose proof (shift_left_value p s) as Hmz.
  remember (Pos.iter xO p s) as mz eqn:Emz.
  assert (Hdz : Zpos (digits2_pos mz) = 53).
  { apply digits2_unique. rewrite Hmz, Hs.
    assert (2 ^ (53 - 1) = 2 ^ (d - 1) * 2 ^ (53 - d))
      by (rewrite <- Z.pow_add_r by lia; f_equal; lia).
    assert (2 ^ 53 = 2 ^ d * 2 ^ (53 - d))
      by (rewrite <- Z.pow_add_r by lia; f_equal; lia).
    assert (0 < 2 ^ (53 - d)) by (apply Z.pow_pos_nonneg; lia).
    nia. }
  destruct (binary_round_aux_bound mz (d - 53)) as (m & e & Hr & He & Hm & Hv);
    rewrite ?Hdz; unfold emin64; try lia.
  rewrite Hdz in He, Hv.
  rewrite Hr. exists m, e, (53 - d). split; [reflexivity|].
  split; [lia|]. split; [lia|]. split; [exact Hm|].
  replace (e + (53 - d)) with (e - (d - 53)) by lia.
  rewrite <- Hs, <- Hmz.
  change (2 ^ (53 - 53)) with 1 in Hv.
  assert (2 ^ 52 <= Zpos mz).
  { pose proof (digits2_bounds mz) as [L _]. rewrite Hdz in L. exact L. }
  nia.
Qed.

(** [int(n * 0.7)] stays between 0 and [n]. *)
Lemma int_times_0_7_bounds (n : Z) :
0 <= n < 2 ^ 1022 ->
exists m, PyFloat.int_times_0_7 n = Ok m /\ 0 <= m <= n.
Proof.
intros [Hn0 Hn].
destruct n as [|p|p]; [exists 0; split; [reflexivity|lia]| |lia].
destruct (of_int_bound p Hn) as (m1 & e1 & k & Hof & Hk & He1 & Hm1 & Hv1).
unfold PyFloat.int_times_0_7. rewrite Hof. cbn [rbind].
unfold PyFloat.mul, PyFloat.lit_0_7, SFmul, PyFloat.prec, PyFloat.emax. cbn [xorb].
remember 6305039478318694%positive as m07 eqn:E07.
assert (H07 : 2 ^ 52 <= Zpos m07 /\ (2 ^ 52 + 1) * (2 ^ 52 + 1) * Zpos m07 <= 2 ^ 157)
  by (subst m07; split; vm_compute; discriminate).
destruct H07 as [H07l H07u].
pose proof (digits2_bounds (m1 * m07)) as [Dl Du].
remember (Zpos (digits2_pos (m1 * m07))) as dP eqn:EdP.
rewrite Pos2Z.inj_mul in Dl, Du.
assert (HdP : 53 <= dP <= 106).
{ split.
  - destruct (Z.leb_spec 53 dP); [assumption|].
    assert (2 ^ dP <= 2 ^ 52) by (apply Z.pow_le_mono_r; lia). nia.
  - destruct (Z.leb_spec dP 106); [assumption|].
    assert (2 ^ 106 <= 2 ^ (dP - 1)) by (apply Z.pow_le_mono_r; lia).
    assert (Zpos m07 < 2 ^ 53) by (subst m07; reflexivity).
    change (2 ^ 106) with (2 ^ 53 * 2 ^ 53) in *. nia. }
destruct (binary_round_aux_bound (m1 * m07) (e1 + -53))
  as (m2 & e2 & Hr & He2 & Hm2 & Hv2); rewrite <- ?EdP; unfold emin64; try lia.
rewrite <- EdP in He2, Hv2. rewrite Pos2Z.inj_mul in Hv2.
rewrite Hr. unfold PyFloat.to_int, cond_Zopp.
eexists. split; [reflexivity|].
assert (Hd52 : 2 ^ 52 * 2 ^ (dP - 53) = 2 ^ (dP - 1))
  by (rewrite <- Z.pow_add_r by lia; f_equal; lia).
(* both roundings together, cleared of denominators *)
remember (2 ^ (e1 + k)) as A eqn:EA.
remember (2 ^ (e2 - (e1 + -53))) as B eqn:EB.
remember (2 ^ k) as K eqn:EK.
assert (HA : 0 < A) by (subst A; apply Z.pow_pos_nonneg; lia).
assert (HB : 0 < B) by (subst B; apply Z.pow_pos_nonneg; lia).
assert (HK : 0 < K) by (subst K; apply Z.pow_pos_nonneg; lia).
assert (H2 : 2 ^ 52 * (Zpos m2 * B) <= (2 ^ 52 + 1) * (Zpos m1 * Zpos m07)) by nia.
assert (H3 : 2 ^ 104 * (Zpos m2 * (B * A)) <= 2 ^ 157 * (Zpos p * K)).
{ apply Z.le_trans with ((2 ^ 52 + 1) * (2 ^ 52 + 1) * Zpos m07 * (Zpos p * K)).
  - apply Z.le_trans with ((2 ^ 52 + 1) * Zpos m07 * (2 ^ 52 * (Zpos m1 * A))).
    + replace (2 ^ 104 * (Zpos m2 * (B * A)))
        with (2 ^ 52 * (2 ^ 52 * (Zpos m2 * B)) * A)
        by (change (2 ^ 104) with (2 ^ 52 * 2 ^ 52); ring).
      replace ((2 ^ 52 + 1) * Zpos m07 * (2 ^ 52 * (Zpos m1 * A)))
        with (2 ^ 52 * ((2 ^ 52 + 1) * (Zpos m1 * Zpos m07)) * A) by ring.
      apply Z.mul_le_mono_nonneg_r; [lia|].
      apply Z.mul_le_mono_nonneg_l; [lia|exact H2].
    + replace ((2 ^ 52 + 1) * (2 ^ 52 + 1) * Zpos m07 * (Zpos p * K))
        with ((2 ^ 52 + 1) * Zpos m07 * ((2 ^ 52 + 1) * (Zpos p * K))) by ring.
      apply Z.mul_le_mono_nonneg_l; [lia|exact Hv1].
  - apply Z.mul_le_mono_nonneg_r; [lia|exact H07u]. }
assert (H4 : Zpos m2 * (B * A) <= 2 ^ 53 * (Zpos p * K)).
{ change (2 ^ 157) with (2 ^ 104 * 2 ^ 53) in H3.
  rewrite <- Z.mul_assoc in H3.
  apply Z.mul_le_mono_pos_l in H3; [exact H3|reflexivity]. }
assert (HBA : B * A = 2 ^ (e2 + 53 + k))
  by (subst A B; rewrite <- Z.pow_add_r by lia; f_equal; lia).
assert (HKK : 2 ^ 53 * K = 2 ^ (53 + k))
  by (subst K; rewrite <- Z.pow_add_r by lia; reflexivity).
rewrite HBA in H4.
replace (2 ^ 53 * (Zpos p * K)) with (Zpos p * 2 ^ (53 + k)) in H4
  by (rewrite <- HKK; ring).
destruct (Z.leb_spec 0 e2) as [Hpos|Hneg].
- split; [apply Z.mul_nonneg_nonneg; [lia|apply Z.pow_nonneg; lia]|].
  replace (e2 + 53 + k) with (e2 + (53 + k)) in H4 by lia.
  rewrite (Z.pow_add_r 2 e2 (53 + k)), Z.mul_assoc in H4 by lia.
  apply Z.mul_le_mono_pos_r in H4; [exact H4|apply Z.pow_pos_nonneg; lia].
- assert (Hp2 : 0 < 2 ^ (- e2)) by (apply Z.pow_pos_nonneg; lia).
  split; [apply Z.div_pos; [lia|exact Hp2]|].
  apply Z.div_le_upper_bound; [exact Hp2|].
  replace (53 + k) with (- e2 + (e2 + 53 + k)) in H4 by lia.
  rewrite (Z.pow_add_r 2 (- e2) (e2 + 53 + k)), Z.mul_assoc in H4 by lia.
  apply Z.mul_le_mono_pos_r in H4; [|apply Z.pow_pos_nonneg; lia].
  lia.
Qed.

(** Below 90 the product is never close enough to an integer for the
  rounding to matter: [int(n * 0.7)] is 7n/10 rounded down. *)
Lemma int_times_0_7_floor (n : Z) :
0 <= n < 90 -> PyFloat.int_times_0_7 n = Ok (7 * n / 10).
Proof.
intros Hn.
assert (Hall : forallb (fun i => match PyFloat.int_times_0_7 i with
                                 | Ok m => m =? 7 * i / 10
                                 | Raise _ => false
                                 end) (range 90) = true)
  by (vm_compute; reflexivity).
rewrite forallb_forall in Hall.
specialize (Hall n).
assert (Hin : In n (range 90)).
{ unfold range. replace n with (Z.of_nat (Z.to_nat n)) by lia.
  apply in_map, in_seq. lia. }
specialize (Hall Hin).
destruct (PyFloat.int_times_0_7 n) as [m|]; [|discriminate].
apply Z.eqb_eq in Hall. now subst.
Qed.

End FloatBounds.

(** ** The retry loop *)

Lemma slice_prefix {A} (c : Z) (l : list A) :
  (0 <= c)%Z ->
  slice None (Some c) l = firstn (Nat.min (List.length l) (Z.to_nat c)) l.
Proof.
  intros Hc. unfold slice, clamp.
  destruct (Z.ltb_spec c 0); [lia|]. simpl skipn.
  f_equal. lia.
Qed.

Section Retry.

Variable json_loads : pystr -> result value.
Variable generate_content : nat -> request -> response.

Local Abbreviation retry := (retry_loop json_loads generate_content).
Local Abbreviation yield := (recovered json_loads).

Lemma batch_retry_loop (k : kind) (text : pystr) (count : Z) (difficulty : pystr) :
  batch json_loads generate_content k text count difficulty =
  retry (type_tag k) (batch_request k text count difficulty) count 2 [0; 1]%Z.
Proof. destruct k; reflexivity. Qed.

(** One turn of the loop in terms of what the attempt recovers. *)
Lemma retry_step (qt : pystr) (req : request) (count mr a : Z)
      (rest : list Z) (w : calls) :
  let r := yield qt (generate_content (List.length w) req) in
  match r with
  | [] =>
      retry qt req count mr (a :: rest) w =
      if match generate_content (List.length w) req with
         | ServiceError => (a =? mr - 1)%Z
         | Response text => (truthy text && (0 =? count)%Z)%bool
         end
      then ([], w ++ [req])
      else retry qt req count mr rest (w ++ [req])
  | _ :: _ =>
      retry qt req count mr (a :: rest) w =
      (if (Z.of_nat (List.length r) =? count)%Z then r
       else slice None (Some count) r, w ++ [req])
  end.
Proof.
  simpl. unfold bind, call.
  destruct (generate_content (List.length w) req) as [|text]; simpl.
  - destruct (a =? mr - 1)%Z; reflexivity.
  - destruct (truthy text); [|reflexivity].
    destruct (_extract_json_from_response _ _ _) as [|q l] eqn:E.
    + destruct count; reflexivity.
    + destruct (_ =? count)%Z; [reflexivity|].
      replace (Z.of_nat (List.length (q :: l)) >? 0)%Z with true
        by (symmetry; apply Z.gtb_lt; simpl List.length; lia).
      reflexivity.
Qed.

(** The loop calls the service once per attempt it runs, always with
    the same request. *)
Lemma retry_loop_calls (qt : pystr) (req : request) (count mr : Z)
      (attempts : list Z) (w : calls) :
  exists n, (n <= List.length attempts)%nat
    /\ (attempts <> [] -> (1 <= n)%nat)
    /\ snd (retry qt req count mr attempts w) = w ++ repeat req n.
Proof.
  revert w. induction attempts as [|a rest IH]; intros w.
  - exists 0%nat. simpl. rewrite app_nil_r. repeat split; auto. congruence.
  - assert (Hone : exists n, (n <= List.length (a :: rest))%nat
              /\ (a :: rest <> [] -> (1 <= n)%nat)
              /\ w ++ [req] = w ++ repeat req n)
      by (exists 1%nat; simpl; repeat split; lia).
    assert (Hrec : exists n, (n <= List.length (a :: rest))%nat
              /\ (a :: rest <> [] -> (1 <= n)%nat)
              /\ snd (retry qt req count mr rest (w ++ [req])) = w ++ repeat req n).
    { destruct (IH (w ++ [req])) as (n & Hn & _ & ->).
      exists (S n). simpl. rewrite <- app_assoc. repeat split; lia || auto. }
    pose proof (retry_step qt req count mr a rest w) as Hs. cbv zeta in Hs.
    destruct (yield qt (generate_content (List.length w) req)).
    + rewrite Hs.
      destruct (generate_content (List.length w) req) as [|t];
        [destruct (a =? mr - 1)%Z|destruct (truthy t && (0 =? count)%Z)%bool];
        assumption.
    + rewrite Hs. exact Hone.
Qed.

(** Attempts that recover nothing end in the empty list. *)
Lemma retry_empty (qt : pystr) (req : request) (count mr : Z)
      (attempts : list Z) (w : calls) :
  (forall i, (i < List.length attempts)%nat ->
             yield qt (generate_content (List.length w + i) req) = []) ->
  fst (retry qt req count mr attempts w) = [].
Proof.
  revert w. induction attempts as [|a rest IH]; intros w Hall; [reflexivity|].
  pose proof (retry_step qt req count mr a rest w) as Hs. cbv zeta in Hs.
  assert (H0 : yield qt (generate_content (List.length w) req) = []).
  { rewrite <- (Nat.add_0_r (List.length w)). apply Hall. simpl. lia. }
  rewrite H0 in Hs. rewrite Hs.
  assert (Hnext : fst (retry qt req count mr rest (w ++ [req])) = []).
  { apply IH. intros i Hi. rewrite length_app. simpl List.length.
    replace (List.length w + 1 + i)%nat with (List.length w + S i)%nat by lia.
    apply Hall. simpl. lia. }
  destruct (generate_content (List.length w) req) as [|t];
    [destruct (a =? mr - 1)%Z|destruct (truthy t && (0 =? count)%Z)%bool];
    auto.
Qed.

(** The two attempts of a batch with a positive count. *)
Lemma retry_two (qt : pystr) (req : request) (count : Z) (w : calls) :
  (0 < count)%Z ->
  let r1 := yield qt (generate_content (List.length w) req) in
  let r2 := yield qt (generate_content (S (List.length w)) req) in
  retry qt req count 2 [0; 1]%Z w =
  match r1, r2 with
  | _ :: _, _ => (firstn (Nat.min (List.length r1) (Z.to_nat count)) r1, w ++ [req])
  | [], _ :: _ =>
      (firstn (Nat.min (List.length r2) (Z.to_nat count)) r2, w ++ [req; req])
  | [], [] => ([], w ++ [req; req])
  end.
Proof.
  intros Hc r1 r2.
  assert (Hacc : forall r : list value,
             r <> [] ->
             (if (Z.of_nat (List.length r) =? count)%Z then r
              else slice None (Some count) r)
             = firstn (Nat.min (List.length r) (Z.to_nat count)) r).
  { intros r _. destruct (Z.eqb_spec (Z.of_nat (List.length r)) count) as [E|E].
    - rewrite Nat.min_l by lia. now rewrite firstn_all.
    - apply slice_prefix. lia. }
  pose proof (retry_step qt req count 2 0 [1%Z] w) as H1. cbv zeta in H1.
  pose proof (retry_step qt req count 2 1 [] (w ++ [req])) as H2. cbv zeta in H2.
  rewrite length_app, Nat.add_1_r in H2. simpl List.length in H2.
  fold r1 in H1. fold r2 in H2.
  rewrite <- !app_assoc in H2. simpl app in H2.
  destruct r1 as [|x1 l1] eqn:E1.
  - assert (Hz : (0 =? count)%Z = false) by (apply Z.eqb_neq; lia).
    assert (H1' : retry qt req count 2 [0; 1]%Z w
                  = retry qt req count 2 [1%Z] (w ++ [req])).
    { rewrite H1.
      destruct (generate_content (List.length w) req); [reflexivity|].
      now rewrite Hz, andb_false_r. }
    rewrite H1'.
    destruct r2 as [|x2 l2] eqn:E2.
    + rewrite H2.
      destruct (generate_content (S (List.length w)) req); [reflexivity|].
      now rewrite Hz, andb_false_r.
    + rewrite H2. f_equal. apply Hacc. discriminate.
  - rewrite H1. f_equal. apply Hacc. discriminate.
Qed.

Lemma firstn_min_length {A} (n : nat) (l : list A) :
  (List.length (firstn (Nat.min (List.length l) n) l) <= n)%nat.
Proof. rewrite length_firstn. lia. Qed.

(** A batch with a positive count never returns more than [count]
    records. *)
Lemma batch_length (k : kind) (text : pystr) (count : Z) (difficulty : pystr)
      (w : calls) :
  (0 < count)%Z ->
  (Z.of_nat (List.length
               (fst (batch json_loads generate_content k text count difficulty w)))
   <= count)%Z.
Proof.
  intros Hc. rewrite batch_retry_loop, retry_two by assumption.
  destruct (yield _ (generate_content (List.length w) _)) as [|x1 l1].
  - destruct (yield _ (generate_content (S (List.length w)) _)) as [|x2 l2];
      cbn [fst]; [simpl; lia|].
    pose proof (firstn_min_length (Z.to_nat count) (x2 :: l2)). lia.
  - cbn [fst]. pose proof (firstn_min_length (Z.to_nat count) (x1 :: l1)). lia.
Qed.

(** The calls of a batch: one or two, all with the batch's request. *)
Lemma batch_calls (k : kind) (text : pystr) (count : Z) (difficulty : pystr)
      (w : calls) :
  exists n, (1 <= n <= 2)%nat
    /\ snd (batch json_loads generate_content k text count difficulty w)
       = w ++ repeat (batch_request k text count difficulty) n.
Proof.
  rewrite batch_retry_loop.
  destruct (retry_loop_calls (type_tag k) (batch_request k text count difficulty)
              count 2 [0; 1]%Z w) as (n & Hn & H1 & Hs).
  exists n. split; [|exact Hs]. split; [apply H1; discriminate|exact Hn].
Qed.

(** C2. A batch calls the service once or twice and never a third
    time, whatever the service would answer then. When neither of the
    first two attempts recovers a record, because the call fails, the
    response has no text or nothing can be parsed from it, the batch
    returns the empty list. *)
Theorem at_most_two_attempts (k : kind) (text : pystr) (count : Z)
        (difficulty : pystr) (w : calls) :
  let req := batch_request k text count difficulty in
  let out := batch json_loads generate_content k text count difficulty w in
  (exists n, (1 <= n <= 2)%nat /\ snd out = w ++ repeat req n)
  /\ (yield (type_tag k) (generate_content (List.length w) req) = [] ->
      yield (type_tag k) (generate_content (S (List.length w)) req) = [] ->
      fst out = []).
Proof.
  intros req out. split; [apply batch_calls|].
  intros H1 H2. subst out. rewrite batch_retry_loop.
  apply retry_empty. intros i Hi. simpl in Hi.
  destruct i as [|[|i]]; [| |lia].
  - now rewrite Nat.add_0_r.
  - now rewrite Nat.add_1_r.
Qed.

(** C3. In a batch with a positive count, the first attempt that
    recovers any record ends the batch: [count] records are returned as
    they are, [n] records are cut to their first [min n count] in the
    order they came, and no further call is made. No batch returns more
    than [count] records. *)
Theorem batch_accepts_first_yield (k : kind) (text : pystr) (count : Z)
        (difficulty : pystr) (w : calls) :
  (0 < count)%Z ->
  let req := batch_request k text count difficulty in
  let r1 := yield (type_tag k) (generate_content (List.length w) req) in
  let r2 := yield (type_tag k) (generate_content (S (List.length w)) req) in
  let out := batch json_loads generate_content k text count difficulty w in
  (Z.of_nat (List.length r1) = count -> out = (r1, w ++ [req]))
  /\ (r1 <> [] ->
      out = (firstn (Nat.min (List.length r1) (Z.to_nat count)) r1, w ++ [req]))
  /\ (r1 = [] -> Z.of_nat (List.length r2) = count ->
      out = (r2, w ++ [req; req]))
  /\ (r1 = [] -> r2 <> [] ->
      out = (firstn (Nat.min (List.length r2) (Z.to_nat count)) r2,
             w ++ [req; req]))
  /\ (Z.of_nat (List.length (fst out)) <= count)%Z.
Proof.
  intros Hc req r1 r2 out.
  assert (Hout : out = match r1, r2 with
                       | _ :: _, _ =>
                           (firstn (Nat.min (List.length r1) (Z.to_nat count)) r1,
                            w ++ [req])
                       | [], _ :: _ =>
                           (firstn (Nat.min (List.length r2) (Z.to_nat count)) r2,
                            w ++ [req; req])
                       | [], [] => ([], w ++ [req; req])
                       end).
  { subst out. rewrite batch_retry_loop. now apply retry_two. }
  assert (Hfull : forall r : list value,
             Z.of_nat (List.length r) = count ->
             firstn (Nat.min (List.length r) (Z.to_nat count)) r = r).
  { intros r Hr. rewrite Nat.min_l by lia. apply firstn_all. }
  repeat split.
  - intros H. rewrite Hout. destruct r1 as [|x l]; [simpl in H; lia|].
    now rewrite Hfull.
  - intros H. rewrite Hout. destruct r1; [congruence|reflexivity].
  - intros H1 H2. rewrite Hout, H1. destruct r2 as [|x l]; [simpl in H2; lia|].
    now rewrite Hfull.
  - intros H1 H2. rewrite Hout, H1. destruct r2; [congruence|reflexivity].
  - subst out. now apply batch_length.
Qed.

End Retry.

Lemma at_most_two_attempts_witness :
  fst (batch Json.loads (fails_twice six_statements) TrueFalse
             (str "source") 6 (str "Medium") []) = [].
Proof.
  apply (proj2 (at_most_two_attempts Json.loads (fails_twice six_statements)
                  TrueFalse (str "source") 6 (str "Medium") [])); reflexivity.
Defined.

(** The third call of [fails_twice] would have given six records. *)
Lemma third_attempt_would_succeed :
  List.length (recovered Json.loads (str "true_false")
                 (fails_twice six_statements 2
                    (batch_request TrueFalse (str "source") 6 (str "Medium"))))
  = 6%nat.
Proof. vm_compute. reflexivity. Qed.

Lemma batch_accepts_first_yield_witness :
  batch Json.loads (always six_statements) TrueFalse
        (str "source") 5 (str "Medium") []
  = ([statement "S1" "True"; statement "S2" "False"; statement "S3" "True";
      statement "S4" "False"; statement "S5" "True"],
     [batch_request TrueFalse (str "source") 5 (str "Medium")]).
Proof.
  pose proof (proj1 (proj2 (batch_accepts_first_yield Json.loads
                              (always six_statements) TrueFalse
                              (str "source") 5 (str "Medium") []
                              ltac:(lia)))) as H.
  cbv zeta in H. rewrite H.
  - vm_compute. reflexivity.
  - vm_compute. discriminate.
Defined.

(** ** The partition and the orchestrator *)

Section Orchestrator.

Variable json_loads : pystr -> result value.
Variable generate_content : nat -> request -> response.

Local Abbreviation run_batch := (batch json_loads generate_content).
Local Abbreviation quiz := (generate_quiz json_loads generate_content).

Local Abbreviation step := (sub_step json_loads generate_content).

Lemma distribution_bounds (N : Z) (question_types : option (list pystr)) :
  (0 <= N < 2 ^ 1022)%Z ->
  exists mc tf,
    distribution N question_types = Ok (mc, tf)
    /\ (0 <= mc)%Z /\ (0 <= tf)%Z /\ (mc + tf <= N)%Z
    /\ ((requested "Multiple Choice" (effective_types question_types)
         || requested "True/False" (effective_types question_types))%bool = true ->
        (mc + tf = N)%Z).
Proof.
  intros HN. unfold distribution. fold (effective_types question_types).
  destruct (requested "Multiple Choice" (effective_types question_types)) eqn:Emc;
    destruct (requested "True/False" (effective_types question_types)) eqn:Etf;
    cbn [andb orb].
  - destruct (int_times_0_7_bounds N HN) as (m & -> & Hm).
    exists m, (N - m)%Z. cbn [rbind]. repeat split; lia.
  - exists N, 0%Z. repeat split; lia.
  - exists 0%Z, N. repeat split; lia.
  - exists 0%Z, 0%Z. repeat split; try lia; try discriminate.
Qed.

Lemma bind_two (m1 m2 : M (list value)) (w : calls) :
  bind m1 (fun a => bind m2 (fun b => ret (Ok (a ++ b)))) w =
  (Ok (fst (m1 w) ++ fst (m2 (snd (m1 w)))), snd (m2 (snd (m1 w)))).
Proof.
  unfold bind, ret. destruct (m1 w) as [a w1]. cbn [fst snd].
  destruct (m2 w1) as [b w2]. reflexivity.
Qed.

Lemma generate_quiz_run (text : pystr) (N : Z) (difficulty : pystr)
      (question_types : option (list pystr)) (mc tf : Z) (w : calls) :
  distribution N question_types = Ok (mc, tf) ->
  quiz text N difficulty question_types w =
  (Ok (fst (step MultipleChoice text mc difficulty w)
       ++ fst (step TrueFalse text tf difficulty
                 (snd (step MultipleChoice text mc difficulty w)))),
   snd (step TrueFalse text tf difficulty
          (snd (step MultipleChoice text mc difficulty w)))).
Proof.
  intros Hd. unfold generate_quiz. rewrite Hd.
  exact (bind_two (step MultipleChoice text mc difficulty)
                  (step TrueFalse text tf difficulty) w).
Qed.

Lemma sub_step_spec (k : kind) (text : pystr) (count : Z) (difficulty : pystr)
      (w : calls) :
  (0 <= count)%Z ->
  (Z.of_nat (List.length (fst (step k text count difficulty w))) <= count)%Z
  /\ exists n, (n <= 2)%nat /\ (count = 0%Z -> n = 0%nat)
       /\ snd (step k text count difficulty w)
          = w ++ repeat (batch_request k text count difficulty) n.
Proof.
  intros Hc. unfold sub_step.
  destruct (Z.gtb_spec count 0) as [Hpos|Hz].
  - split; [apply batch_length; lia|].
    destruct (batch_calls json_loads generate_content k text count difficulty w)
      as (n & Hn & Hs).
    exists n. repeat split; [lia|lia|exact Hs].
  - split; [simpl; lia|]. exists 0%nat. simpl. rewrite app_nil_r.
    repeat split; lia.
Qed.

(** C4 (amended). For a count from 0 up to [2^1022] and a type list
    that names at least one of the two types, the sub-counts are not
    negative and add up to the count. With both types, and a count
    below 90, the multiple-choice share is 70 percent of the count
    rounded down, 10 and 5 for a count of 15; with one type, that type
    gets the whole count. A type whose sub-count is zero is never called
    for: the calls of a run are those of the multiple-choice batch, then
    those of the true/false batch, at most two each and none for a zero
    sub-count. *)
Theorem distribution_partition (text : pystr) (N : Z) (difficulty : pystr)
        (question_types : option (list pystr)) (w : calls) :
  let types := effective_types question_types in
  (0 <= N < 2 ^ 1022)%Z ->
  (requested "Multiple Choice" types || requested "True/False" types)%bool = true ->
  exists mc tf,
    distribution N question_types = Ok (mc, tf)
    /\ (0 <= mc)%Z /\ (0 <= tf)%Z /\ (mc + tf = N)%Z
    /\ (requested "Multiple Choice" types = true ->
        requested "True/False" types = true ->
        (N < 90)%Z -> mc = (7 * N / 10)%Z)
    /\ (requested "Multiple Choice" types = true ->
        requested "True/False" types = false -> mc = N /\ tf = 0%Z)
    /\ (requested "Multiple Choice" types = false ->
        requested "True/False" types = true -> mc = 0%Z /\ tf = N)
    /\ distribution 15 None = Ok (10, 5)%Z
    /\ exists a b,
        (a <= 2)%nat /\ (b <= 2)%nat
        /\ (mc = 0%Z -> a = 0%nat) /\ (tf = 0%Z -> b = 0%nat)
        /\ snd (quiz text N difficulty question_types w)
           = w ++ repeat (batch_request MultipleChoice text mc difficulty) a
               ++ repeat (batch_request TrueFalse text tf difficulty) b.
Proof.
  intros types HN Hreq.
  destruct (distribution_bounds N question_types HN)
    as (mc & tf & Hd & Hmc & Htf & _ & Hsum).
  specialize (Hsum Hreq).
  exists mc, tf. split; [exact Hd|]. do 3 (split; [assumption|]).
  assert (Hcases : forall a b,
             requested "Multiple Choice" types = a ->
             requested "True/False" types = b ->
             distribution N question_types =
             if (a && b)%bool
             then PyFloat.int_times_0_7 N >>= (fun m => Ok (m, (N - m)%Z))
             else if a then Ok (N, 0%Z)
                  else if b then Ok (0%Z, N) else Ok (0%Z, 0%Z)).
  { intros a b <- <-. reflexivity. }
  split; [|split; [|split; [|split]]].
  - intros Ea Eb H90. rewrite (Hcases _ _ Ea Eb) in Hd. cbn [andb] in Hd.
    rewrite int_times_0_7_floor in Hd by lia. cbn [rbind] in Hd. congruence.
  - intros Ea Eb. rewrite (Hcases _ _ Ea Eb) in Hd. cbn [andb] in Hd.
    split; congruence.
  - intros Ea Eb. rewrite (Hcases _ _ Ea Eb) in Hd. cbn [andb] in Hd.
    split; congruence.
  - vm_compute. reflexivity.
  - rewrite (generate_quiz_run text N difficulty question_types mc tf w Hd). cbn [snd].
    destruct (sub_step_spec MultipleChoice text mc difficulty w Hmc)
      as (_ & a & Ha & Ha0 & ->).
    destruct (sub_step_spec TrueFalse text tf difficulty
                (w ++ repeat (batch_request MultipleChoice text mc difficulty) a)
                Htf) as (_ & b & Hb & Hb0 & ->).
    exists a, b. rewrite <- app_assoc. repeat split; assumption.
Qed.

(** C5. For a count from 0 up to [2^1022], [generate_quiz] returns a
    list and raises nothing: the records of the multiple-choice
    sub-step followed by those of the true/false sub-step, each in its
    own order. The list is never longer than the count, and an empty
    result of one sub-step leaves the records of the other as they
    are. *)
Theorem generate_quiz_concatenates (text : pystr) (N : Z) (difficulty : pystr)
        (question_types : option (list pystr)) (w : calls) :
  (0 <= N < 2 ^ 1022)%Z ->
  exists mc tf,
    distribution N question_types = Ok (mc, tf)
    /\ let mcr := step MultipleChoice text mc difficulty w in
       let tfr := step TrueFalse text tf difficulty (snd mcr) in
       quiz text N difficulty question_types w = (Ok (fst mcr ++ fst tfr), snd tfr)
       /\ (Z.of_nat (List.length (fst mcr ++ fst tfr)) <= N)%Z
       /\ (fst tfr = [] ->
           fst (quiz text N difficulty question_types w) = Ok (fst mcr))
       /\ (fst mcr = [] ->
           fst (quiz text N difficulty question_types w) = Ok (fst tfr)).
Proof.
  intros HN.
  destruct (distribution_bounds N question_types HN)
    as (mc & tf & Hd & Hmc & Htf & Hle & _).
  exists mc, tf. split; [exact Hd|]. intros mcr tfr.
  pose proof (generate_quiz_run text N difficulty question_types mc tf w Hd) as Hrun.
  fold mcr in Hrun. fold tfr in Hrun.
  repeat split.
  - exact Hrun.
  - rewrite length_app.
    pose proof (proj1 (sub_step_spec MultipleChoice text mc difficulty w Hmc)).
    pose proof (proj1 (sub_step_spec TrueFalse text tf difficulty (snd mcr) Htf)).
    fold mcr in H. fold tfr in H0. lia.
  - intros E. rewrite Hrun, E, app_nil_r. reflexivity.
  - intros E. rewrite Hrun, E. reflexivity.
Qed.

End Orchestrator.

(** With no type requested both sub-counts are zero, whatever the
    count: they do not add up to it. *)
Lemma distribution_without_types :
  distribution 5 (Some []) = Ok (0, 0)%Z /\ (0 + 0)%Z <> 5%Z.
Proof. split; [reflexivity|discriminate]. Qed.

(** At 90 the double nearest to the product lies below 63. *)
Lemma distribution_of_90 :
  distribution 90 None = Ok (62, 28)%Z /\ (7 * 90 / 10 = 63)%Z.
Proof. split; vm_compute; reflexivity. Qed.

(** Past the largest double the conversion of the count raises. *)
Lemma distribution_overflow :
  distribution (2 ^ 1024) None = Raise OverflowError.
Proof. vm_compute. reflexivity. Qed.

Lemma small_count (n : Z) : (0 <= n < 1000)%Z -> (0 <= n < 2 ^ 1022)%Z.
Proof.
  intros H. split; [lia|].
  apply Z.lt_trans with 1000%Z; [lia|reflexivity].
Qed.

Lemma distribution_partition_witness :
  exists mc tf,
    distribution 15 (Some [str "True/False"]) = Ok (mc, tf)
    /\ (mc + tf = 15)%Z /\ mc = 0%Z
    /\ snd (generate_quiz Json.loads (always six_statements) (str "source") 15
              (str "Medium") (Some [str "True/False"]) [])
       = [batch_request TrueFalse (str "source") 15 (str "Medium")].
Proof.
  destruct (distribution_partition Json.loads (always six_statements) (str "source")
              15%Z (str "Medium") (Some [str "True/False"]) []
              (small_count 15 ltac:(lia)) eq_refl)
    as (mc & tf & Hd & _ & _ & Hsum & _ & _ & Htf & _ & _).
  exists mc, tf. destruct (Htf eq_refl eq_refl) as [Hmc _].
  split; [exact Hd|]. split; [exact Hsum|]. split; [exact Hmc|].
  vm_compute. reflexivity.
Defined.

Lemma generate_quiz_concatenates_witness :
  fst (generate_quiz Json.loads (always six_statements) (str "source") 2
         (str "Medium") (Some [str "True/False"]) [])
  = Ok [statement "S1" "True"; statement "S2" "False"].
Proof.
  destruct (generate_quiz_concatenates Json.loads (always six_statements)
              (str "source") 2%Z (str "Medium") (Some [str "True/False"]) []
              (small_count 2 ltac:(lia)))
    as (mc & tf & Hd & Hrun & _).
  injection Hd as <- <-. rewrite Hrun. vm_compute. reflexivity.
Defined.

(** ** The upload step *)

Section Upload.

Variable path : Type.
Variable primary : path -> extraction.
Variable fallback : path -> option pystr.

(** Without usable content the extractor answers its diagnostic
    string. *)
Lemma extract_unusable (f : path) (text : pystr) :
  primary f = Extracted text ->
  (len (strip text) <= 50)%Z ->
  (fallback f = None
   \/ exists text', fallback f = Some text' /\ (len (strip text') <= 100)%Z) ->
  extract_text_from_pdf primary fallback f = NO_READABLE_TEXT.
Proof.
  intros Hp H50 Hf. unfold extract_text_from_pdf. rewrite Hp.
  replace (len (strip text) >? 50)%Z with false 
    by (symmetry; rewrite Z.gtb_ltb; apply Z.ltb_ge; lia).
  rewrite andb_false_r.
  destruct Hf as [-> | (text' & -> & H100)]; [reflexivity|].
  replace (len (strip text') >? 100)%Z with false
    by (symmetry; rewrite Z.gtb_ltb; apply Z.ltb_ge; lia).
  now rewrite andb_false_r.
Qed.

(** The upload step takes the diagnostic string for extracted text. *)
Lemma upload_accepts_diagnostic (ui : widgets path) (st : session_state)
      (f : path) :
  uploaded_file ui = Some f ->
  pdf_processed st = false ->
  extract_text_from_pdf primary fallback f = NO_READABLE_TEXT ->
  pdf_processed (process_upload primary fallback ui st) = true
  /\ extracted_text (process_upload primary fallback ui st) = NO_READABLE_TEXT.
Proof.
  intros Hu Hp He. unfold process_upload. rewrite Hu, Hp, He. split; reflexivity.
Qed.

End Upload.

(** C9. On a scanned PDF, where PyPDF2 finds no text and there is no
    fallback, [extract_text_from_pdf] answers its diagnostic string and
    raises nothing. The upload step then marks the PDF as processed with
    that string as its text, and the click on the generate button calls
    the service for a quiz on the diagnostic string. *)
Theorem diagnostic_reaches_generation :
  extract_text_from_pdf scanned_primary scanned_fallback tt = NO_READABLE_TEXT
  /\ let st1 := fst (script_run Json.loads service_down scanned_primary
                       scanned_fallback (after_upload false) initial_state []) in
     pdf_processed st1 = true
     /\ extracted_text st1 = NO_READABLE_TEXT
     /\ snd (script_run Json.loads service_down scanned_primary scanned_fallback
               (after_upload true) st1 [])
        = [batch_request MultipleChoice NO_READABLE_TEXT 10 (str "Medium");
           batch_request MultipleChoice NO_READABLE_TEXT 10 (str "Medium");
           batch_request TrueFalse NO_READABLE_TEXT 5 (str "Medium");
           batch_request TrueFalse NO_READABLE_TEXT 5 (str "Medium")].
Proof. repeat split; vm_compute; reflexivity. Qed.

(** * Further properties *)

(** ** The validators *)

Lemma validate_one_acceptable (q : pydict) :
  acceptable q -> validate_one q = Ok true.
Proof.
  intros [(Hq & Ha & Ht) Hk].
  unfold validate_one, required_fields. cbn [forallb].
  rewrite Hq, Ha, Ht. cbn [andb negb].
  unfold dict_index.
  destruct Hk as [(Hty & (o & Ho & Hlen) & (a & Hin & Hca))|(Hty & (a & Hin & Hca))].
  - rewrite Hty. cbn [rbind].
    replace (eq_str (JString (str "multiple_choice")) "multiple_choice") with true
      by (vm_compute; reflexivity).
    unfold dict_has. rewrite Ho. cbn [negb rbind py_len]. rewrite Hlen.
    cbn [rbind]. rewrite Hca. cbn [rbind].
    replace (in_strs (JString (str a)) ["A"; "B"; "C"; "D"]%string) with true
      by (symmetry; apply in_strs_spec; eauto).
    reflexivity.
  - rewrite Hty. cbn [rbind].
    replace (eq_str (JString (str "true_false")) "multiple_choice") with false
      by (vm_compute; reflexivity).
    cbn [rbind].
    replace (eq_str (JString (str "true_false")) "true_false") with true
      by (vm_compute; reflexivity).
    rewrite Hca. cbn [rbind].
    replace (in_strs (JString (str a)) ["True"; "False"]%string) with true
      by (symmetry; apply in_strs_spec; eauto).
    reflexivity.
Qed.

(** X1. A list whose records [validate_question_data] accepts one by one
    is accepted by [validate_quiz_data]. *)
Theorem validate_quiz_data_accepts (quiz_data : list pydict) :
  (forall q, In q quiz_data -> validate_question_data q = Ok true) ->
  validate_quiz_data quiz_data = Ok true.
Proof.
  induction quiz_data as [|q l IH]; intros H; [reflexivity|].
  cbn [validate_quiz_data].
  rewrite validate_one_acceptable.
  - cbn [rbind]. apply IH. intros q' Hin. apply H. now right.
  - destruct (validate_question_data_spec q) as (b & Hb & Hacc).
    rewrite (H q (or_introl eq_refl)) in Hb. injection Hb as <-. now apply Hacc.
Qed.

Lemma validate_quiz_data_app (a b : list pydict) :
  validate_quiz_data (a ++ b) =
  validate_quiz_data a >>= (fun ok => if ok then validate_quiz_data b else Ok false).
Proof.
  induction a as [|q a IH]; [reflexivity|].
  cbn [app validate_quiz_data].
  destruct (validate_one q) as [[|]|e]; cbn [rbind]; auto.
Qed.

(** X2. [validate_quiz_data] stops at the first record it refuses or
    that makes it raise: the records after it are not looked at. After
    records it accepts, it goes on with the rest. *)
Theorem validate_quiz_data_stops (a b : list pydict) :
  (validate_quiz_data a = Ok false -> validate_quiz_data (a ++ b) = Ok false)
  /\ (forall e, validate_quiz_data a = Raise e -> validate_quiz_data (a ++ b) = Raise e)
  /\ (validate_quiz_data a = Ok true ->
      validate_quiz_data (a ++ b) = validate_quiz_data b).
Proof.
  rewrite validate_quiz_data_app.
  repeat split; [intros -> | intros e -> | intros ->]; reflexivity.
Qed.

Lemma validate_one_raises (q : pydict) (e : exn) :
  validate_one q = Raise e ->
  e = TypeError
  /\ dict_get (str "type") q = Some (JString (str "multiple_choice"))
  /\ exists o, dict_get (str "options") q = Some o /\ sized o = false.
Proof.
  unfold validate_one, required_fields, dict_index, dict_has. cbn [forallb].
  destruct (dict_get (str "question") q) as [vq|]; [|discriminate].
  destruct (dict_get (str "correct_answer") q) as [va|]; [|discriminate].
  destruct (dict_get (str "type") q) as [vt|]; [|discriminate].
  cbn [andb negb rbind].
  destruct (eq_str vt "multiple_choice") eqn:Emc.
  - apply eq_str_spec in Emc. subst vt.
    destruct (dict_get (str "options") q) as [vo|]; cbn [negb rbind].
    + destruct vo; cbn [py_len rbind];
        try (intros [= <-]; repeat split; eexists; split; reflexivity).
      * destruct (negb _); [discriminate|].
        destruct (negb (in_strs va _)); discriminate.
      * destruct (negb _); [discriminate|].
        destruct (negb (in_strs va _)); discriminate.
      * destruct (negb _); [discriminate|].
        destruct (negb (in_strs va _)); discriminate.
    + discriminate.
  - destruct (eq_str vt "true_false"); cbn [rbind]; [|discriminate].
    destruct (negb (in_strs va _)); discriminate.
Qed.

(** X3. The only exception of [validate_quiz_data] is the [TypeError]
    of [len], on a multiple-choice record whose [options] has no
    length. *)
Theorem validate_quiz_data_raises (quiz_data : list pydict) (e : exn) :
  validate_quiz_data quiz_data = Raise e ->
  e = TypeError
  /\ exists q o, In q quiz_data
       /\ dict_get (str "type") q = Some (JString (str "multiple_choice"))
       /\ dict_get (str "options") q = Some o /\ sized o = false.
Proof.
  induction quiz_data as [|q l IH]; [discriminate|].
  cbn [validate_quiz_data].
  destruct (validate_one q) as [[|]|e'] eqn:E; cbn [rbind].
  - intros H. destruct (IH H) as (-> & q' & o & Hin & Ht & Ho & Hs).
    split; [reflexivity|]. exists q', o. repeat split; auto. now right.
  - discriminate.
  - intros [= ->]. destruct (validate_one_raises q e E) as (-> & Ht & o & Ho & Hs).
    split; [reflexivity|]. exists q, o. repeat split; auto. now left.
Qed.

(** X4. On a record whose type is one of the two known ones and whose
    [options], when present, is a list, the two validators give the same
    answer. *)
Theorem validators_agree_when_well_typed (q : pydict) :
  well_typed q -> validate_quiz_data [q] = validate_question_data q.
Proof.
  intros [Hty Hopt].
  cbn [validate_quiz_data].
  assert (Hone : validate_one q = validate_question_data q).
  { unfold validate_one, validate_question_data, required_fields, dict_index, dict_has.
    cbn [forallb].
    destruct (dict_get (str "question") q) as [vq|]; [|reflexivity].
    destruct (dict_get (str "correct_answer") q) as [va|]; [|reflexivity].
    destruct Hty as [Hty|Hty]; rewrite Hty; cbn [andb negb rbind].
    - replace (eq_str (JString (str "multiple_choice")) "multiple_choice") with true
        by (vm_compute; reflexivity).
      destruct (dict_get (str "options") q) as [vo|] eqn:Eo; cbn [negb rbind];
        [|reflexivity].
      rewrite (Hopt vo eq_refl). cbn [negb]. reflexivity.
    - replace (eq_str (JString (str "true_false")) "multiple_choice") with false
        by (vm_compute; reflexivity).
      cbn [rbind].
      replace (eq_str (JString (str "true_false")) "true_false") with true
        by (vm_compute; reflexivity).
      reflexivity. }
  rewrite Hone. destruct (validate_question_data q) as [[|]|]; reflexivity.
Qed.

Lemma validate_quiz_data_accepts_witness :
  validate_quiz_data [mc_record four_options "B"; tf_record "True"] = Ok true.
Proof.
  apply validate_quiz_data_accepts.
  intros q [<-|[<-|[]]]; vm_compute; reflexivity.
Defined.

Lemma validate_quiz_data_stops_witness :
  validate_quiz_data ([essay_record; []] ++ [mc_record_with (JInt 4)]) = Ok false.
Proof.
  apply (proj1 (validate_quiz_data_stops [essay_record; []]
                  [mc_record_with (JInt 4)])).
  vm_compute. reflexivity.
Defined.

Lemma validate_quiz_data_raises_witness :
  TypeError = TypeError
  /\ exists q o, In q [tf_record "False"; mc_record_with (JInt 4)]
       /\ dict_get (str "type") q = Some (JString (str "multiple_choice"))
       /\ dict_get (str "options") q = Some o /\ sized o = false.
Proof.
  apply (validate_quiz_data_raises [tf_record "False"; mc_record_with (JInt 4)]).
  vm_compute. reflexivity.
Defined.

Lemma validators_agree_when_well_typed_witness :
  validate_quiz_data [mc_record three_options "B"]
  = validate_question_data (mc_record three_options "B").
Proof.
  apply validators_agree_when_well_typed. split.
  - left. reflexivity.
  - intros o H. vm_compute in H. injection H as <-. reflexivity.
Defined.

(** ** Repair *)

Lemma sub_trailing_commas_filter (pending : option pystr) (s : pystr) :
  filter not_comma (sub_trailing_commas pending s) =
  filter not_comma (match pending with Some ws => ws | None => [] end)
  ++ filter not_comma s.
Proof.
  assert (H44 : not_comma (cp ",") = false) by reflexivity.
  revert pending. induction s as [|c r IH]; intros pending.
  - destruct pending; simpl; now rewrite ?H44, ?app_nil_r.
  - assert (Hc : not_comma c = negb (is_char "," c)) by reflexivity.
    cbn [sub_trailing_commas]. destruct pending as [ws|].
    + destruct (isspace c) eqn:Es.
      * rewrite IH. cbn [filter]. rewrite filter_app, <- app_assoc. cbn [filter app].
        destruct (not_comma c); reflexivity.
      * destruct (is_char "}" c || is_char "]" c)%bool eqn:Eb.
        -- rewrite filter_app. cbn [filter]. rewrite IH. reflexivity.
        -- destruct (is_char "," c) eqn:Ec; cbn [negb] in Hc.
           ++ cbn [filter]. rewrite H44, Hc, filter_app, IH. reflexivity.
           ++ cbn [filter]. rewrite H44, filter_app. cbn [filter].
              rewrite Hc, IH. reflexivity.
    + destruct (is_char "," c) eqn:Ec; cbn [negb] in Hc.
      * rewrite IH. cbn [filter app]. rewrite Hc. reflexivity.
      * cbn [filter app]. rewrite Hc, IH. reflexivity.
Qed.

Lemma sub_trailing_commas_length (pending : option pystr) (s : pystr) :
  (List.length (sub_trailing_commas pending s)
   <= match pending with Some ws => S (List.length ws) | None => 0 end
      + List.length s)%nat.
Proof.
  revert pending. induction s as [|c r IH]; intros pending.
  - destruct pending; simpl; lia.
  - cbn [sub_trailing_commas]. destruct pending as [ws|].
    + destruct (isspace c).
      * specialize (IH (Some (ws ++ [c]))). cbv beta iota in IH.
        rewrite length_app in IH. simpl in *. lia.
      * destruct (is_char "}" c || is_char "]" c)%bool.
        -- specialize (IH None). rewrite length_app. simpl in *. lia.
        -- destruct (is_char "," c).
           ++ specialize (IH (Some [])). simpl. rewrite length_app. simpl in *. lia.
           ++ specialize (IH None). simpl. rewrite length_app. simpl in *. lia.
    + destruct (is_char "," c).
      * specialize (IH (Some [])). simpl in *. lia.
      * specialize (IH None). simpl in *. lia.
Qed.

(** X5. The repair deletes commas and turns apostrophes into double
    quotes, nothing else: without its commas the repaired text is the
    original without its commas, apostrophes replaced, and the text never
    grows. *)
Theorem fix_json_only_commas_and_quotes (json_text : pystr) :
  filter not_comma (fix_json json_text)
  = replace (cp "'") DQUOTE (filter not_comma json_text)
  /\ (List.length (fix_json json_text) <= List.length json_text)%nat.
Proof.
  unfold fix_json. split.
  - rewrite sub_trailing_commas_filter. cbn [filter app].
    unfold replace. induction json_text as [|c r IH]; [reflexivity|].
    cbn [map filter].
    destruct (N.eqb_spec c (cp "'")) as [->|Hc].
    + replace (not_comma DQUOTE) with true by reflexivity.
      replace (not_comma (cp "'")) with true by reflexivity.
      cbn [map]. rewrite N.eqb_refl. now rewrite IH.
    + destruct (not_comma c); [|exact IH].
      cbn [map]. destruct (N.eqb_spec c (cp "'")); [contradiction|]. now rewrite IH.
  - pose proof (sub_trailing_commas_length None (replace (cp "'") DQUOTE json_text)) as H.
    unfold replace in *. rewrite length_map in H. exact H.
Qed.

(** ** Tags of the generated records *)

Section Tagged.

Variable json_loads : pystr -> result value.
Variable generate_content : nat -> request -> response.

Lemma extract_tagged (response_text question_type : pystr) :
Forall (tagged_question question_type)
       (_extract_json_from_response json_loads response_text question_type).
Proof.
rewrite extract_cases.
destruct (negb _ && _)%bool; [|constructor].
destruct (json_loads (array_text _)) as [[]|[]];
  try constructor; try apply valid_questions_tagged.
destruct (json_loads (fix_json _)) as [[]|[]];
  try constructor; apply valid_questions_tagged.
Qed.

Lemma recovered_tagged (question_type : pystr) (resp : response) :
Forall (tagged_question question_type) (recovered json_loads question_type resp).
Proof.
destruct resp as [|text]; [constructor|]. simpl.
destruct (truthy text); [apply extract_tagged|constructor].
Qed.

Lemma Forall_firstn_keeps {A} (P : A -> Prop) (n : nat) (l : list A) :
Forall P l -> Forall P (firstn n l).
Proof.
revert n. induction l as [|x l IH]; intros [|n] H; simpl; try constructor.
- now inversion H.
- apply IH. now inversion H.
Qed.

Lemma Forall_skipn_keeps {A} (P : A -> Prop) (n : nat) (l : list A) :
Forall P l -> Forall P (skipn n l).
Proof.
revert n. induction l as [|x l IH]; intros [|n] H; simpl; auto.
apply IH. now inversion H.
Qed.

Lemma Forall_slice {A} (P : A -> Prop) (lo hi : option Z) (l : list A) :
Forall P l -> Forall P (slice lo hi l).
Proof.
intros H. unfold slice. now apply Forall_firstn_keeps, Forall_skipn_keeps.
Qed.

Lemma retry_loop_tagged (qt : pystr) (req : request) (count mr : Z)
    (attempts : list Z) (w : calls) :
Forall (tagged_question qt)
       (fst (retry_loop json_loads generate_content qt req count mr attempts w)).
Proof.
revert w. induction attempts as [|a rest IH]; intros w; [constructor|].
pose proof (retry_step json_loads generate_content qt req count mr a rest w) as Hs.
cbv zeta in Hs.
pose proof (recovered_tagged qt (generate_content (List.length w) req)) as Ht.
destruct (recovered json_loads qt (generate_content (List.length w) req)) as [|x l].
- rewrite Hs.
  destruct (generate_content (List.length w) req) as [|t];
    [destruct (a =? mr - 1)%Z|destruct (truthy t && (0 =? count)%Z)%bool];
    try constructor; apply IH.
- rewrite Hs. cbn [fst].
  destruct (_ =? count)%Z; [exact Ht|now apply Forall_slice].
Qed.

Lemma batch_tagged (k : kind) (text : pystr) (count : Z) (difficulty : pystr)
    (w : calls) :
Forall (tagged_question (type_tag k))
       (fst (batch json_loads generate_content k text count difficulty w)).
Proof. rewrite batch_retry_loop. apply retry_loop_tagged. Qed.

Lemma sub_step_tagged (k : kind) (text : pystr) (count : Z) (difficulty : pystr)
    (w : calls) :
Forall (tagged_question (type_tag k))
       (fst (sub_step json_loads generate_content k text count difficulty w)).
Proof.
unfold sub_step. destruct (count >? 0)%Z; [apply batch_tagged|constructor].
Qed.

(** X6. Whatever the service answers, the records of a quiz come in two
  runs, those tagged [multiple_choice] before those tagged
  [true_false], and each is a mapping with its question, its answer and
  its type. *)
Theorem generate_quiz_tagged (text : pystr) (N : Z) (difficulty : pystr)
      (question_types : option (list pystr)) (w : calls) (quiz : list value) :
fst (generate_quiz json_loads generate_content text N difficulty question_types w)
= Ok quiz ->
exists mc tf,
  quiz = mc ++ tf
  /\ Forall (tagged_question (str "multiple_choice")) mc
  /\ Forall (tagged_question (str "true_false")) tf.
Proof.
intros H.
destruct (distribution N question_types) as [[mcc tfc]|e] eqn:Ed.
- rewrite (generate_quiz_run json_loads generate_content text N difficulty
             question_types mcc tfc w Ed) in H.
  cbn [fst] in H. injection H as <-.
  eexists _, _. split; [reflexivity|].
  split; [apply (sub_step_tagged MultipleChoice)|apply (sub_step_tagged TrueFalse)].
- unfold generate_quiz in H. rewrite Ed in H. discriminate.
Qed.

End Tagged.

Lemma generate_quiz_tagged_witness :
  exists mc tf,
    [statement "S1" "True"; statement "S2" "False"] = mc ++ tf
    /\ Forall (tagged_question (str "multiple_choice")) mc
    /\ Forall (tagged_question (str "true_false")) tf.
Proof.
  apply (generate_quiz_tagged Json.loads (always six_statements) (str "source") 2
           (str "Medium") (Some [str "True/False"]) []).
  vm_compute. reflexivity.
Defined.


(** ** Prose around the array *)

Lemma drop_while_app_stop (p : N -> bool) (a : pystr) (c : N) (r : pystr) :
  p c = false -> drop_while p (a ++ c :: r) = drop_while p a ++ c :: r.
Proof.
  intros Hc. induction a as [|x a IH]; simpl.
  - now rewrite Hc.
  - destruct (p x); [exact IH|reflexivity].
Qed.

Lemma drop_while_In (p : N -> bool) (a : pystr) (x : N) :
  In x (drop_while p a) -> In x a.
Proof.
  induction a as [|y a IH]; simpl; [tauto|].
  destruct (p y); [intros H; right; auto|tauto].
Qed.

Lemma startswith_split (p s : pystr) :
  startswith p s = true -> exists r, s = p ++ r.
Proof.
  revert s. induction p as [|x p IH]; intros s H; [now exists s|].
  destruct s as [|y s]; [discriminate|]. simpl in H.
  apply andb_true_iff in H as [Hx Hp]. apply N.eqb_eq in Hx. subst y.
  destruct (IH s Hp) as [r ->]. now exists r.
Qed.

Lemma prefix_within (p r pre x : pystr) (c : N) :
  p ++ r = pre ++ c :: x -> ~ In c p ->
  exists pre2, pre = p ++ pre2 /\ r = pre2 ++ c :: x.
Proof.
  revert pre. induction p as [|a p IH]; intros pre H Hn.
  - exists pre. split; [reflexivity|exact H].
  - destruct pre as [|b pre].
    + simpl in H. injection H as -> _. destruct Hn. now left.
    + simpl in H. injection H as -> H.
      destruct (IH pre H) as (pre2 & -> & Hr); [intros Hin; apply Hn; now right|].
      now exists pre2.
Qed.

Lemma slice_from {A} (p r : list A) :
  slice (Some (Z.of_nat (List.length p))) None (p ++ r) = r.
Proof.
  unfold slice, clamp. rewrite length_app.
  destruct (Z.ltb_spec (Z.of_nat (List.length p)) 0); [lia|].
  rewrite Z.max_r, Z.min_r by lia.
  rewrite Nat2Z.id, skipn_app, skipn_all, Nat.sub_diag. simpl.
  apply firstn_all2. lia.
Qed.

Lemma slice_drop_last {A} (r p : list A) (k : Z) :
  k = Z.of_nat (List.length p) -> (0 < k)%Z ->
  slice None (Some (- k)%Z) (r ++ p) = r.
Proof.
  intros -> Hk. unfold slice, clamp. rewrite length_app.
  destruct (Z.ltb_spec (- Z.of_nat (List.length p)) 0); [|lia].
  rewrite Z.max_r, Z.min_r by lia. simpl skipn.
  replace (Z.to_nat (_ - 0)) with (List.length r) by lia.
  rewrite firstn_app, Nat.sub_diag, firstn_all. simpl. now rewrite app_nil_r.
Qed.

Section Framed.

Variable mid : pystr.
Local Abbreviation body := (bracket_body mid).

Lemma body_rev : rev body = cp "]" :: rev mid ++ [cp "["].
Proof. unfold bracket_body. simpl. rewrite rev_app_distr. reflexivity. Qed.

Lemma framed_strip (s : pystr) : framed body s -> framed body (strip s).
Proof.
intros (pre & post & -> & Hpre & Hpost).
exists (drop_while isspace pre), (rev (drop_while isspace (rev post))).
split; [|split].
- unfold strip, lstrip, rstrip.
  unfold bracket_body at 1. cbn [app].
  rewrite drop_while_app_stop by reflexivity.
  change (cp "[" :: (mid ++ [cp "]"]) ++ post) with (body ++ post).
  rewrite !rev_app_distr, body_rev. cbn [app].
  rewrite <- !app_assoc. cbn [app].
  rewrite drop_while_app_stop by reflexivity.
  rewrite rev_app_distr. cbn [rev].
  rewrite !rev_app_distr, !rev_involutive. cbn [rev app].
  unfold bracket_body. cbn [app]. rewrite <- ?app_assoc. cbn [app]. reflexivity.
- intros H. apply Hpre. eapply drop_while_In; eauto.
- intros H. apply Hpost. apply in_rev in H. apply drop_while_In in H.
  now apply in_rev.
Qed.

Lemma framed_skip_prefix (p s : pystr) :
~ In (cp "[") p -> framed body s -> startswith p s = true ->
framed body (slice (Some (Z.of_nat (List.length p))) None s).
Proof.
intros Hp (pre & post & -> & Hpre & Hpost) Hs.
destruct (startswith_split _ _ Hs) as [r Hr].
unfold bracket_body in Hr at 1. cbn [app] in Hr. symmetry in Hr.
destruct (prefix_within _ _ _ _ _ Hr Hp) as (pre2 & -> & ->).
rewrite <- app_assoc. rewrite slice_from.
exists pre2, post. repeat split; auto.
intros H. apply Hpre. apply in_or_app. now right.
Qed.

Lemma framed_drop_suffix (p s : pystr) :
~ In (cp "]") p -> p <> [] -> framed body s -> endswith p s = true ->
framed body (slice None (Some (- Z.of_nat (List.length p))%Z) s).
Proof.
intros Hp Hne (pre & post & -> & Hpre & Hpost) Hs.
unfold endswith in Hs.
destruct (startswith_split _ _ Hs) as [r Hr].
rewrite !rev_app_distr, body_rev in Hr. cbn [app] in Hr.
rewrite <- app_assoc in Hr. cbn [app] in Hr. symmetry in Hr.
destruct (prefix_within _ _ _ _ _ Hr) as (q2 & Hq & _);
  [intros H; apply Hp; now apply in_rev|].
assert (Hpost2 : post = rev q2 ++ p).
{ rewrite <- (rev_involutive post), Hq, rev_app_distr, rev_involutive. reflexivity. }
subst post.
replace (pre ++ body ++ rev q2 ++ p) with ((pre ++ body ++ rev q2) ++ p)
  by (rewrite <- !app_assoc; reflexivity).
rewrite slice_drop_last; [|reflexivity|destruct p; [congruence|simpl; lia]].
exists pre, (rev q2). repeat split; auto.
intros H. apply Hpost. apply in_or_app. now left.
Qed.

Lemma framed_clean (s : pystr) : framed body s -> framed body (clean_response s).
Proof.
intros H. unfold clean_response.
apply framed_strip.
assert (H1 : framed body (strip s)) by now apply framed_strip.
assert (H2 : framed body
               (if startswith (str "```json") (strip s)
                then slice (Some 7%Z) None (strip s)
                else if startswith (str "```") (strip s)
                     then slice (Some 3%Z) None (strip s) else strip s)).
{ destruct (startswith (str "```json") (strip s)) eqn:E7.
  - apply (framed_skip_prefix (str "```json")); auto.
    vm_compute. intuition discriminate.
  - destruct (startswith (str "```") (strip s)) eqn:E3; [|exact H1].
    apply (framed_skip_prefix (str "```")); auto.
    vm_compute. intuition discriminate. }
destruct (endswith (str "```") _) eqn:E; [|exact H2].
apply (framed_drop_suffix (str "```")); auto.
- vm_compute. intuition discriminate.
- discriminate.
Qed.

Lemma find_frame (pre x : pystr) :
~ In (cp "[") pre -> find "[" (pre ++ cp "[" :: x) = Z.of_nat (List.length pre).
Proof.
induction pre as [|c pre IH]; intros Hn.
- reflexivity.
- cbn [app find List.length].
  destruct (is_char "[" c) eqn:E.
  + apply N.eqb_eq in E. subst. destruct Hn. now left.
  + rewrite IH by (intros H; apply Hn; now right).
    destruct (Z.ltb_spec (Z.of_nat (List.length pre)) 0); lia.
Qed.

Lemma rfind_none (post : pystr) :
~ In (cp "]") post -> rfind "]" post = (-1)%Z.
Proof.
induction post as [|c post IH]; intros Hn; [reflexivity|].
cbn [rfind]. rewrite IH by (intros H; apply Hn; now right).
destruct (is_char "]" c) eqn:E; [|reflexivity].
apply N.eqb_eq in E. subst. destruct Hn. now left.
Qed.

Lemma rfind_frame (y post : pystr) :
~ In (cp "]") post -> rfind "]" (y ++ cp "]" :: post) = Z.of_nat (List.length y).
Proof.
intros Hn. induction y as [|c y IH].
- cbn [app rfind]. rewrite rfind_none by assumption. reflexivity.
- cbn [app rfind List.length]. rewrite IH.
  destruct (Z.leb_spec 0 (Z.of_nat (List.length y))); lia.
Qed.

Lemma framed_array_text (s : pystr) :
framed body s ->
array_text s = body
/\ (negb (find "[" s =? -1)%Z && (rfind "]" s + 1 >? find "[" s)%Z)%bool = true.
Proof.
intros (pre & post & -> & Hpre & Hpost).
assert (Hf : find "[" (pre ++ body ++ post) = Z.of_nat (List.length pre)).
{ unfold bracket_body. cbn [app]. now apply find_frame. }
assert (Hr : rfind "]" (pre ++ body ++ post)
             = Z.of_nat (List.length (pre ++ cp "[" :: mid))).
{ replace (pre ++ body ++ post) with ((pre ++ cp "[" :: mid) ++ cp "]" :: post)
    by (unfold bracket_body; rewrite <- !app_assoc; cbn [app]; rewrite <- app_assoc; reflexivity).
  now apply rfind_frame. }
rewrite length_app in Hr. cbn [List.length] in Hr.
split.
- unfold array_text. rewrite Hf, Hr. unfold slice, clamp.
  assert (Hlen : List.length (pre ++ body ++ post)
                 = (List.length pre + (List.length mid + 2) + List.length post)%nat).
  { rewrite !length_app. unfold bracket_body. cbn [List.length]. rewrite length_app.
    simpl. lia. }
  rewrite Hlen.
  destruct (Z.ltb_spec (Z.of_nat (List.length pre)) 0); [lia|].
  destruct (Z.ltb_spec (Z.of_nat (List.length pre + S (List.length mid)) + 1) 0); [lia|].
  rewrite !Z.max_r, !Z.min_r by lia.
  rewrite Nat2Z.id, skipn_app, skipn_all, Nat.sub_diag. cbn [skipn app].
  replace (Z.to_nat _) with (List.length body)
    by (unfold bracket_body; cbn [List.length]; rewrite length_app; simpl; lia).
  rewrite firstn_app, Nat.sub_diag, firstn_all. simpl. now rewrite app_nil_r.
- rewrite Hf, Hr. apply andb_true_iff. split.
  + apply negb_true_iff, Z.eqb_neq. lia.
  + apply Z.gtb_lt. lia.
Qed.

Variable json_loads : pystr -> result value.

(** X7. Text before the first opening bracket and after the last
  closing bracket, code fences among it, does not change what is
  recovered: the result is that of the bracketed part alone. *)
Theorem extract_ignores_prose (pre post question_type : pystr) :
~ In (cp "[") pre -> ~ In (cp "]") post ->
_extract_json_from_response json_loads (pre ++ body ++ post) question_type
= _extract_json_from_response json_loads body question_type.
Proof.
intros Hpre Hpost.
assert (H1 : framed body (pre ++ body ++ post)) by (exists pre, post; auto).
assert (H2 : framed body body).
{ exists [], []. rewrite app_nil_r. repeat split; auto. }
apply framed_clean, framed_array_text in H1 as [A1 G1].
apply framed_clean, framed_array_text in H2 as [A2 G2].
rewrite !extract_cases. cbv zeta. rewrite G1, G2, A1, A2. reflexivity.
Qed.

End Framed.

Lemma extract_ignores_prose_witness :
  _extract_json_from_response Json.loads
    (str "Here is your quiz: "
       ++ bracket_body (str "{'question': 'Q?', 'correct_answer': 'A'}")
       ++ str " Good luck!")
    (str "multiple_choice")
  = _extract_json_from_response Json.loads
      (bracket_body (str "{'question': 'Q?', 'correct_answer': 'A'}"))
      (str "multiple_choice").
Proof.
  apply extract_ignores_prose.
  - vm_compute. intuition discriminate.
  - vm_compute. intuition discriminate.
Defined.


(** ** Cleaning of extracted text *)


Lemma split_ws_head (c : N) (r : pystr) :
  isspace c = false ->
  exists w ws, split_ws (c :: r) = (c :: w) :: ws
               /\ List.concat (split_ws (c :: r)) = c :: List.concat (split_ws r)
               /\ (Forall (fun w => w <> [] /\ Forall (fun x => isspace x = false) w)
                          (split_ws r) ->
                   Forall (fun w => w <> [] /\ Forall (fun x => isspace x = false) w)
                          (split_ws (c :: r))).
Proof.
  intros Hc. cbn [split_ws]. rewrite Hc.
  assert (Hone : Forall (fun w => w <> [] /\ Forall (fun x => isspace x = false) w)
                        [[c]]).
  { constructor; [|constructor]. split; [discriminate|]. now constructor. }
  destruct r as [|c' r'].
  - exists [], []. split; [reflexivity|]. split; [reflexivity|]. intros _. exact Hone.
  - destruct (isspace c') eqn:E'.
    + exists [], (split_ws (c' :: r')).
      split; [reflexivity|]. split; [reflexivity|].
      intros H. constructor; [|exact H]. split; [discriminate|]. now constructor.
    + destruct (split_ws (c' :: r')) as [|w ws] eqn:Er.
      * exists [], []. split; [reflexivity|]. split; [reflexivity|]. intros _. exact Hone.
      * exists w, ws. split; [reflexivity|]. split; [reflexivity|].
        intros H. inversion H as [|? ? [Hw1 Hw2] Hws]; subst.
        constructor; [|exact Hws]. split; [discriminate|]. now constructor.
Qed.

Lemma split_ws_nonempty (c : N) (r : pystr) :
  isspace c = false -> split_ws (c :: r) <> [].
Proof.
  intros Hc. destruct (split_ws_head c r Hc) as (w & ws & -> & _). discriminate.
Qed.

Lemma split_ws_words (s : pystr) :
  Forall (fun w => w <> [] /\ Forall (fun x => isspace x = false) w) (split_ws s).
Proof.
  induction s as [|c r IH]; [constructor|].
  destruct (isspace c) eqn:Hc.
  - cbn [split_ws]. now rewrite Hc.
  - destruct (split_ws_head c r Hc) as (_ & _ & _ & _ & H). now apply H.
Qed.

Lemma split_ws_concat (s : pystr) :
  List.concat (split_ws s) = filter (fun c => negb (isspace c)) s.
Proof.
  induction s as [|c r IH]; [reflexivity|].
  destruct (isspace c) eqn:Hc.
  - cbn [split_ws filter]. rewrite Hc. exact IH.
  - destruct (split_ws_head c r Hc) as (_ & _ & _ & H & _).
    rewrite H, IH. cbn [filter]. now rewrite Hc.
Qed.

Lemma filter_join_space (p : N -> bool) (ws : list pystr) :
  p 32%N = false -> filter p (join (str " ") ws) = filter p (List.concat ws).
Proof.
  intros Hp. induction ws as [|x ws IH]; [reflexivity|].
  destruct ws as [|y rest].
  - simpl. now rewrite app_nil_r.
  - change (join (str " ") (x :: y :: rest))
      with (x ++ [32%N] ++ join (str " ") (y :: rest)).
    change (List.concat (x :: y :: rest)) with (x ++ List.concat (y :: rest)).
    rewrite !filter_app, IH. cbn [filter]. now rewrite Hp.
Qed.

Lemma filter_filter_weaken (p q : N -> bool) (s : pystr) :
  (forall c, p c = true -> q c = true) ->
  filter p (filter q s) = filter p s.
Proof.
  intros H. induction s as [|c r IH]; [reflexivity|].
  cbn [filter]. destruct (q c) eqn:Eq.
  - cbn [filter]. now rewrite IH.
  - destruct (p c) eqn:Ep; [rewrite (H c Ep) in Eq; discriminate|exact IH].
Qed.

Lemma filter_drop_while (p q : N -> bool) (s : pystr) :
  (forall c, q c = true -> p c = false) ->
  filter p (drop_while q s) = filter p s.
Proof.
  intros H. induction s as [|c r IH]; [reflexivity|].
  cbn [drop_while]. destruct (q c) eqn:Eq; [|reflexivity].
  cbn [filter]. now rewrite (H c Eq).
Qed.

Lemma filter_rev {A} (p : A -> bool) (l : list A) :
  filter p (rev l) = rev (filter p l).
Proof.
  induction l as [|x l IH]; [reflexivity|].
  cbn [rev filter]. rewrite filter_app, IH. cbn [filter].
  destruct (p x); [reflexivity|now rewrite app_nil_r].
Qed.

Lemma filter_strip (p : N -> bool) (s : pystr) :
  (forall c, isspace c = true -> p c = false) ->
  filter p (strip s) = filter p s.
Proof.
  intros H. unfold strip, rstrip, lstrip.
  rewrite filter_rev.
  rewrite (filter_drop_while p isspace _ H).
  rewrite filter_rev, rev_involutive.
  exact (filter_drop_while p isspace s H).
Qed.

Lemma visible_not_space (c : N) : isspace c = true -> visible c = false.
Proof. unfold visible. now intros ->. Qed.

Lemma cleaned_lines_map (lines : list pystr) :
  cleaned_lines lines
  = map (fun line => join (str " ") (split_ws (strip line))) (filter kept lines).
Proof.
  induction lines as [|l rest IH]; [reflexivity|].
  cbn [cleaned_lines filter]. unfold kept at 1.
  assert (E : (nonempty (strip l) && (len (strip l) >? 2)%Z)%bool
              = (len (strip l) >? 2)%Z).
  { destruct (strip l); [reflexivity|reflexivity]. }
  rewrite E. destruct (len (strip l) >? 2)%Z; cbn [map]; now rewrite IH.
Qed.

Lemma filter_concat_map (p : N -> bool) (f : pystr -> pystr) (ls : list pystr) :
  (forall l, filter p (f l) = filter p l) ->
  filter p (List.concat (map f ls)) = filter p (List.concat ls).
Proof.
  intros H. induction ls as [|l ls IH]; [reflexivity|].
  cbn [map List.concat]. now rewrite !filter_app, H, IH.
Qed.

Lemma normalize_visible (s : pystr) :
  filter visible (join (str " ") (split_ws s)) = filter visible s.
Proof.
  rewrite filter_join_space by reflexivity.
  rewrite split_ws_concat. apply filter_filter_weaken.
  intros c. unfold visible. destruct (isspace c); [discriminate|reflexivity].
Qed.

(** X8. The characters of the cleaned text that are neither whitespace
    nor NUL are those of the lines with more than two characters once
    stripped, in their order; shorter lines leave nothing. *)
Theorem clean_keeps_visible (text : pystr) :
  filter visible (_clean_extracted_text text)
  = filter visible (List.concat (filter kept (split_on 10 text))).
Proof.
  unfold _clean_extracted_text.
  destruct text as [|c r]; [reflexivity|]. cbn [nonempty negb].
  rewrite normalize_visible. unfold remove_char.
  rewrite filter_filter_weaken
    by (intros x; unfold visible; destruct (isspace x), (x =? 0)%N; auto).
  rewrite filter_join_space by reflexivity.
  rewrite cleaned_lines_map.
  apply filter_concat_map. intros l.
  rewrite normalize_visible. apply filter_strip, visible_not_space.
Qed.

Lemma join_cons2 (sep x y : pystr) (rest : list pystr) :
  join sep (x :: y :: rest) = x ++ sep ++ join sep (y :: rest).
Proof. reflexivity. Qed.

Lemma tight_app (a b : pystr) : tight a -> tight b -> forall m, tight (a ++ m ++ b).
Proof.
  intros [(c & r & -> & Hc) _] [_ (d & q & -> & Hd)] m. split.
  - exists c, (r ++ m ++ q ++ [d]). split; [reflexivity|exact Hc].
  - exists d, ((c :: r) ++ m ++ q). split; [|exact Hd].
    now rewrite <- !app_assoc.
Qed.

Lemma join_tight (sep : pystr) (parts : list pystr) :
  Forall tight parts -> parts <> [] -> tight (join sep parts).
Proof.
  induction parts as [|x parts IH]; intros H Hne; [congruence|].
  inversion H as [|? ? Hx Hrest]; subst.
  destruct parts as [|y rest]; [exact Hx|].
  rewrite join_cons2. apply tight_app; [exact Hx|].
  apply IH; [exact Hrest|discriminate].
Qed.

Lemma strip_tight (s : pystr) : tight s -> strip s = s.
Proof.
  intros [(c & r & -> & Hc) (d & q & Hq & Hd)].
  unfold strip, lstrip, rstrip. cbn [drop_while]. rewrite Hc.
  rewrite Hq, rev_app_distr. cbn [rev app drop_while]. rewrite Hd.
  cbn [rev]. now rewrite rev_involutive.
Qed.

Lemma word_tight (w : pystr) :
  w <> [] -> Forall (fun x => isspace x = false) w -> tight w.
Proof.
  intros Hne Hall. split.
  - destruct w as [|c r]; [congruence|]. exists c, r. split; [reflexivity|].
    now inversion Hall.
  - destruct (exists_last Hne) as (q & d & ->).
    exists d, q. split; [reflexivity|].
    rewrite Forall_forall in Hall. apply Hall, in_or_app. right. now left.
Qed.

Lemma remove_char_In (a c : N) (s : pystr) : In c (remove_char a s) -> c <> a /\ In c s.
Proof.
  unfold remove_char. rewrite filter_In. intros [Hin Hc].
  split; [|exact Hin]. apply negb_true_iff, N.eqb_neq in Hc. exact Hc.
Qed.

(** X9. The cleaned text is a run of words with exactly one space
    between two of them; no word holds whitespace or a NUL character, and
    the text neither starts nor ends with whitespace. *)
Theorem clean_normal_form (text : pystr) :
  exists words,
    _clean_extracted_text text = join (str " ") words
    /\ Forall clean_word words
    /\ strip (_clean_extracted_text text) = _clean_extracted_text text.
Proof.
  unfold _clean_extracted_text.
  destruct (negb (nonempty text)).
  - exists []. repeat split; constructor.
  - set (r := remove_char 0 (join (str " ") (cleaned_lines (split_on 10 text)))).
    exists (split_ws r). split; [reflexivity|].
    pose proof (split_ws_words r) as Hw.
    split.
    + rewrite Forall_forall in *. intros w Hin. destruct (Hw w Hin) as [Hne Hall].
      split; [exact Hne|]. rewrite Forall_forall in *. intros c Hc.
      split; [now apply Hall|].
      assert (Hcr : In c (List.concat (split_ws r)))
        by (apply in_concat; exists w; split; assumption).
      rewrite split_ws_concat in Hcr. apply filter_In in Hcr as [Hcr _].
      now apply remove_char_In in Hcr.
    + destruct (split_ws r) as [|w ws] eqn:E; [reflexivity|].
      apply strip_tight, join_tight; [|discriminate].
      rewrite Forall_forall in *. intros x Hx. destruct (Hw x Hx). now apply word_tight.
Qed.

Lemma clean_tight (text : pystr) :
  nonempty (_clean_extracted_text text) = true -> tight (_clean_extracted_text text).
Proof.
  intros Hne. unfold _clean_extracted_text in *.
  destruct (negb (nonempty text)); [discriminate|].
  set (r := remove_char 0 (join (str " ") (cleaned_lines (split_on 10 text)))) in *.
  pose proof (split_ws_words r) as Hw.
  destruct (split_ws r) as [|w ws] eqn:E; [discriminate|].
  apply join_tight; [|discriminate].
  rewrite Forall_forall in *. intros x Hx. destruct (Hw x Hx). now apply word_tight.
Qed.

(** ** The page loop *)

(** X10. The entry of a page carries the page's place in the file,
    counted from one, whatever became of the pages before it; a page
    whose extraction raises, or of which the cleaning leaves nothing,
    adds no entry and changes no other. *)
Theorem page_entries_app (page_num : Z) (before : list page) (p : page)
        (after : list page) :
  let number := (page_num + Z.of_nat (List.length before) + 1)%Z in
  page_entries page_num (before ++ p :: after)
  = page_entries page_num before
    ++ (if marked p then [page_entry number p] else [])
    ++ page_entries number after.
Proof.
  cbv zeta. revert page_num. induction before as [|q before IH]; intros page_num.
  - cbn [app List.length page_entries]. rewrite Z.add_0_r.
    destruct p as [t|]; cbn [marked page_entry]; [|reflexivity].
    destruct (nonempty (strip t)); cbn [andb]; [|reflexivity].
    destruct (nonempty (_clean_extracted_text t)); reflexivity.
  - cbn [app List.length page_entries].
    replace (page_num + Z.of_nat (S (List.length before)) + 1)%Z
      with (page_num + 1 + Z.of_nat (List.length before) + 1)%Z by lia.
    destruct q as [t|]; [|apply IH].
    destruct (nonempty (strip t)); [|apply IH].
    destruct (nonempty (_clean_extracted_text t)); [|apply IH].
    rewrite IH. reflexivity.
Qed.

Lemma str_of_int_nonempty (n : Z) : (1 <= List.length (str_of_int n))%nat.
Proof.
  unfold str_of_int, str. rewrite length_map.
  assert (H : forall d, NilEmpty.string_of_uint d = EmptyString -> d = Decimal.Nil).
  { intros d. destruct d; cbn; congruence. }
  assert (Hu : forall d, NilZero.string_of_uint d <> EmptyString).
  { intros d. unfold NilZero.string_of_uint. destruct d; cbn; congruence. }
  destruct (NilZero.string_of_int (Z.to_int n)) as [|a s] eqn:E.
  - exfalso. unfold NilZero.string_of_int in E.
    destruct (Z.to_int n); [now apply (Hu d)|discriminate].
  - cbn. lia.
Qed.

Lemma page_entries_shape (page_num : Z) (pages : list page) :
  Forall (fun e => tight e /\ (16 <= List.length e)%nat) (page_entries page_num pages).
Proof.
  revert page_num. induction pages as [|p pages IH]; intros page_num; [constructor|].
  cbn [page_entries]. destruct p as [t|]; [|apply IH].
  destruct (nonempty (strip t)); [|apply IH].
  destruct (nonempty (_clean_extracted_text t)) eqn:Hne; [|apply IH].
  constructor; [|apply IH].
  destruct (clean_tight t Hne) as [(c & r & Hc & Hsp) (d & q & Hq & Hd)].
  split.
  - split.
    + eexists _, _. split; [reflexivity|reflexivity].
    + exists d, (str "--- Page " ++ str_of_int (page_num + 1) ++ str " ---"
                     ++ [10%N] ++ q).
      split; [|exact Hd]. rewrite Hq, <- !app_assoc. reflexivity.
  - rewrite !length_app. pose proof (str_of_int_nonempty (page_num + 1)).
    replace (List.length (str "--- Page ")) with 9%nat by reflexivity.
    replace (List.length (str " ---")) with 4%nat by reflexivity.
    rewrite Hc. cbn [List.length]. lia.
Qed.

Lemma join_length_first (sep x : pystr) (rest : list pystr) :
  (List.length x <= List.length (join sep (x :: rest)))%nat.
Proof.
  destruct rest; [simpl; lia|]. rewrite join_cons2, !length_app. lia.
Qed.

Section Primary.

Variable path : Type.
Variable read_pdf : path -> pdf_reader.
Variable fallback : path -> option pystr.

(** X11. The length test of [extract_text_from_pdf] counts the page
  markers: a file of which three pages leave an entry is always
  accepted from the first pass, the fallback is not consulted. *)
Theorem three_pages_accepted (file_path : path) (pages : list page) :
read_pdf file_path = Pages pages ->
(3 <= List.length (page_entries 0 pages))%nat ->
extract_text_from_pdf (_extract_with_pypdf2 read_pdf) fallback file_path
= join [10%N; 10%N] (page_entries 0 pages).
Proof.
intros Hr H3. unfold extract_text_from_pdf, _extract_with_pypdf2. rewrite Hr.
pose proof (page_entries_shape 0 pages) as Hs.
destruct (page_entries 0 pages) as [|e1 [|e2 [|e3 rest]]]; simpl in H3; try lia.
assert (Ht : tight (join [10%N; 10%N] (e1 :: e2 :: e3 :: rest))).
{ apply join_tight; [|discriminate].
  rewrite Forall_forall in *. intros x Hx. now apply Hs. }
rewrite (strip_tight _ Ht).
assert (Hlen : (52 <= List.length (join [10%N; 10%N] (e1 :: e2 :: e3 :: rest)))%nat).
{ inversion Hs as [|? ? [_ L1] Hs2]; subst.
  inversion Hs2 as [|? ? [_ L2] Hs3]; subst.
  inversion Hs3 as [|? ? [_ L3] _]; subst.
  rewrite !join_cons2, !length_app.
  pose proof (join_length_first [10%N; 10%N] e3 rest).
  change (List.length [10%N; 10%N]) with 2%nat. lia. }
destruct Ht as [(c & r & Hc & _) _].
rewrite Hc in *. cbn [nonempty andb].
replace (len (c :: r) >? 50)%Z with true; [reflexivity|].
symmetry. apply Z.gtb_lt. unfold len. lia.
Qed.

End Primary.

Lemma three_pages_accepted_witness :
  extract_text_from_pdf (_extract_with_pypdf2 three_short_pages) scanned_fallback tt
  = join [10%N; 10%N]
         (page_entries 0 [PageText (str "abc"); PageText (str "def");
                          PageText (str "ghi")]).
Proof.
  apply three_pages_accepted.
  - reflexivity.
  - vm_compute. lia.
Defined.


(** ** Blank results *)

Lemma drop_while_keeps (p : N -> bool) (s : pystr) (c : N) :
  In c s -> p c = false -> In c (drop_while p s).
Proof.
  intros Hin Hc. induction s as [|x s IH]; [destruct Hin|].
  cbn [drop_while]. destruct (p x) eqn:Ex; [|exact Hin].
  destruct Hin as [->|Hin]; [congruence|auto].
Qed.

Lemma strip_keeps (s : pystr) (c : N) :
  In c s -> isspace c = false -> nonempty (strip s) = true.
Proof.
  intros Hin Hc. unfold strip, rstrip, lstrip.
  assert (H : In c (rev (drop_while isspace (rev (drop_while isspace s))))).
  { apply in_rev. rewrite rev_involutive. apply drop_while_keeps; [|exact Hc].
    apply -> in_rev. now apply drop_while_keeps. }
  destruct (rev _); [destruct H|reflexivity].
Qed.

Lemma long_not_blank (s : pystr) (k : Z) :
  (0 <= k)%Z -> (len (strip s) >? k)%Z = true -> nonempty (strip s) = true.
Proof.
  intros Hk H. apply Z.gtb_lt in H. unfold len in H.
  destruct (strip s); [simpl in H; lia|reflexivity].
Qed.

Section NeverBlank.

Variable path : Type.
Variable primary : path -> extraction.
Variable fallback : path -> option pystr.

Lemma extract_text_not_blank (f : path) :
nonempty (strip (extract_text_from_pdf primary fallback f)) = true.
Proof.
unfold extract_text_from_pdf.
assert (Hd : nonempty (strip NO_READABLE_TEXT) = true) by (vm_compute; reflexivity).
destruct (primary f) as [text|message].
- destruct (nonempty text && (len (strip text) >? 50)%Z)%bool eqn:E.
  + apply andb_true_iff in E as [_ E]. eapply long_not_blank; [|exact E]. lia.
  + destruct (fallback f) as [text'|]; [|exact Hd].
    destruct (nonempty text' && (len (strip text') >? 100)%Z)%bool eqn:E';
      [|exact Hd].
    apply andb_true_iff in E' as [_ E']. eapply long_not_blank; [|exact E']. lia.
- apply strip_keeps with (c := cp "E"); [now left|reflexivity].
Qed.

(** X12. [extract_text_from_pdf] never answers a blank string, so the
  upload step of the app marks every uploaded PDF as processed and
  keeps the answer as its text. *)
Theorem upload_always_processed (ui : widgets path) (st : session_state) (f : path) :
uploaded_file ui = Some f ->
pdf_processed st = false ->
pdf_processed (process_upload primary fallback ui st) = true
/\ extracted_text (process_upload primary fallback ui st)
   = extract_text_from_pdf primary fallback f
/\ nonempty (strip (extract_text_from_pdf primary fallback f)) = true.
Proof.
intros Hu Hp. unfold process_upload. rewrite Hu, Hp. cbn [negb].
rewrite extract_text_not_blank. repeat split.
Qed.

End NeverBlank.

Lemma upload_always_processed_witness :
  pdf_processed (process_upload scanned_primary scanned_fallback
                   (after_upload false) initial_state) = true
  /\ extracted_text (process_upload scanned_primary scanned_fallback
                       (after_upload false) initial_state)
     = extract_text_from_pdf scanned_primary scanned_fallback tt
  /\ nonempty (strip (extract_text_from_pdf scanned_primary scanned_fallback tt))
     = true.
Proof.
  apply upload_always_processed; reflexivity.
Defined.


Section Uploaded.

Variable path : Type.
Variable read_pdf : path -> pdf_reader.
Variable upload : Type.
Variable write_temp : upload -> pystr + path.
Variable unlink : path -> option pystr.
Variable fallback : path -> option pystr.

(** X13. [extract_text_from_uploaded_file] never answers a blank
  string. When the temporary file cannot be removed, the extracted text
  is dropped for the message of that failure; otherwise the answer is
  that of [extract_text_from_pdf] on the temporary file. *)
Theorem uploaded_file_text (uploaded : upload) :
nonempty (strip (extract_text_from_uploaded_file read_pdf write_temp unlink
                   fallback uploaded)) = true
/\ (forall tmp message,
       write_temp uploaded = inr tmp -> unlink tmp = Some message ->
       extract_text_from_uploaded_file read_pdf write_temp unlink fallback uploaded
       = str "Error processing uploaded file: " ++ message)
/\ (forall tmp,
       write_temp uploaded = inr tmp -> unlink tmp = None ->
       extract_text_from_uploaded_file read_pdf write_temp unlink fallback uploaded
       = extract_text_from_pdf (_extract_with_pypdf2 read_pdf) fallback tmp).
Proof.
unfold extract_text_from_uploaded_file.
assert (He : forall m, nonempty (strip (str "Error processing uploaded file: " ++ m))
                       = true)
  by (intros m; apply strip_keeps with (c := cp "E"); [now left|reflexivity]).
split; [|split].
- destruct (write_temp uploaded) as [m|tmp]; [apply He|].
  destruct (unlink tmp); [apply He|apply extract_text_not_blank].
- intros tmp m -> ->. reflexivity.
- intros tmp -> ->. reflexivity.
Qed.

End Uploaded.

Lemma uploaded_file_text_witness :
  extract_text_from_uploaded_file three_short_pages temp_written unlink_fails
    scanned_fallback tt
  = str "Error processing uploaded file: " ++ str "Permission denied".
Proof.
  apply (proj1 (proj2 (uploaded_file_text _ three_short_pages _ temp_written
                         unlink_fails scanned_fallback tt)) tt);
    reflexivity.
Defined.


(** ** The text export *)

Section ExportFacts.

Variable py_str : value -> pystr.
Variable py_bool : value -> bool.

Lemma option_lines_ok (options : list value) (j : Z) :
(0 <= j)%Z -> (j + Z.of_nat (List.length options) <= 1000000)%Z ->
exists ls, option_lines py_str j options = Ok ls
           /\ List.length ls = List.length options.
Proof.
revert j. induction options as [|o rest IH]; intros j Hj Hlen.
- exists []. split; reflexivity.
- cbn [option_lines]. unfold py_chr.
  cbn [List.length] in Hlen.
  replace ((0 <=? 65 + j) && (65 + j <=? 1114111))%Z with true
    by (symmetry; apply andb_true_iff; split; apply Z.leb_le; lia).
  cbn [rbind].
  destruct (IH (j + 1)%Z) as (ls & -> & Hl); [lia|lia|].
  cbn [rbind]. eexists. split; [reflexivity|]. simpl. now rewrite Hl.
Qed.

Lemma question_lines_acceptable (quiz_data : list pydict) (i : Z) :
Forall acceptable quiz_data ->
exists ls, question_lines py_str i quiz_data = Ok ls.
Proof.
revert i. induction quiz_data as [|q rest IH]; intros i H; [now exists []|].
inversion H as [|? ? [(Hq & Ha & Ht) Hk] Hrest]; subst.
cbn [question_lines]. unfold dict_index.
apply dict_has_get in Hq as [vq Hq]. rewrite Hq. cbn [rbind].
destruct (IH (i + 1)%Z Hrest) as [more Hmore].
destruct Hk as [(Hty & (o & Ho & Hlen) & _)|(Hty & _)]; rewrite Hty; cbn [rbind].
- replace (eq_str (JString (str "multiple_choice")) "multiple_choice") with true
    by (vm_compute; reflexivity).
  rewrite Ho. cbn [rbind py_iter].
  destruct (option_lines_ok o 0) as (ls & -> & _); [lia|lia|].
  cbn [rbind]. rewrite Hmore. cbn [rbind]. eauto.
- replace (eq_str (JString (str "true_false")) "multiple_choice") with false
    by (vm_compute; reflexivity).
  cbn [rbind].
  replace (eq_str (JString (str "true_false")) "true_false") with true
    by (vm_compute; reflexivity).
  cbn [rbind]. rewrite Hmore. cbn [rbind]. eauto.
Qed.

Lemma answer_lines_ok (quiz_data : list pydict) (i : Z) :
Forall (fun q => dict_has (str "correct_answer") q = true) quiz_data ->
exists ls, answer_lines py_str py_bool i quiz_data = Ok ls.
Proof.
revert i. induction quiz_data as [|q rest IH]; intros i H; [now exists []|].
inversion H as [|? ? Ha Hrest]; subst.
cbn [answer_lines]. unfold dict_index.
apply dict_has_get in Ha as [va Ha]. rewrite Ha. cbn [rbind].
destruct (IH (i + 1)%Z Hrest) as [more Hmore].
unfold dict_has.
destruct (dict_get (str "explanation") q) as [e|]; cbn [rbind].
- destruct (py_bool e); cbn [rbind]; rewrite Hmore; cbn [rbind]; eauto.
- rewrite Hmore. cbn [rbind]. eauto.
Qed.

Lemma accepted_acceptable (quiz_data : list pydict) :
(forall q, In q quiz_data -> validate_question_data q = Ok true) ->
Forall acceptable quiz_data.
Proof.
intros H. apply Forall_forall. intros q Hin.
destruct (validate_question_data_spec q) as (b & Hb & Hacc).
rewrite (H q Hin) in Hb. injection Hb as <-. now apply Hacc.
Qed.

(** X14. A quiz whose records all pass [validate_question_data] is
  exported to text without an exception. *)
Theorem export_validated (current_date : pystr) (quiz_data : list pydict) :
(forall q, In q quiz_data -> validate_question_data q = Ok true) ->
exists text, export_quiz_to_text py_str py_bool current_date quiz_data = Ok text.
Proof.
intros H. apply accepted_acceptable in H.
unfold export_quiz_to_text, export_lines.
destruct (question_lines_acceptable quiz_data 1 H) as [qs ->]. cbn [rbind].
destruct (answer_lines_ok quiz_data 1) as [ans ->].
- eapply Forall_impl; [|exact H]. intros q [(_ & Ha & _) _]. exact Ha.
- cbn [rbind]. eauto.
Qed.

(** X15. A record tagged [multiple_choice] without [options] makes the
  text export raise [KeyError], after any records that pass the
  validation and whatever follows. *)
Theorem export_missing_options (current_date : pystr)
      (before : list pydict) (q : pydict) (after : list pydict) :
(forall x, In x before -> validate_question_data x = Ok true) ->
dict_has (str "question") q = true ->
dict_get (str "type") q = Some (JString (str "multiple_choice")) ->
dict_has (str "options") q = false ->
export_quiz_to_text py_str py_bool current_date (before ++ q :: after)
= Raise KeyError.
Proof.
intros Hb Hq Hty Ho. apply accepted_acceptable in Hb.
unfold export_quiz_to_text, export_lines.
assert (Hql : forall i, question_lines py_str i (before ++ q :: after)
                        = Raise KeyError).
{ induction before as [|x before IH]; intros i.
  - cbn [app question_lines]. unfold dict_index.
    apply dict_has_get in Hq as [vq Hq]. rewrite Hq, Hty. cbn [rbind].
    replace (eq_str (JString (str "multiple_choice")) "multiple_choice") with true
      by (vm_compute; reflexivity).
    unfold dict_has in Ho. destruct (dict_get (str "options") q); [discriminate|].
    reflexivity.
  - inversion Hb as [|? ? Hx Hrest]; subst.
    destruct (question_lines_acceptable [x] i) as [ls Hls]; [now constructor|].
    cbn [app question_lines] in *. unfold dict_index in *.
    destruct (dict_get (str "question") x); [|discriminate].
    cbn [rbind] in *.
    destruct (dict_get (str "type") x) as [ty|]; [|discriminate].
    cbn [rbind] in *.
    destruct (if eq_str ty "multiple_choice" then _ else _) as [body|e];
      [|discriminate].
    cbn [rbind]. rewrite (IH Hrest). reflexivity. }
rewrite Hql. reflexivity.
Qed.

(** X16. Records tagged [true_false] that have their question and
  answer, as the recovery returns them, are always exported without an
  exception. *)
Theorem export_true_false (current_date : pystr) (quiz_data : list pydict) :
Forall (fun d => tagged_question (str "true_false") (JObject d)) quiz_data ->
exists text, export_quiz_to_text py_str py_bool current_date quiz_data = Ok text.
Proof.
intros H.
assert (Hq : forall i, exists ls, question_lines py_str i quiz_data = Ok ls).
{ induction quiz_data as [|q rest IH]; intros i; [now exists []|].
  inversion H as [|? ? (d & [= <-] & Hqq & Ha & Ht) Hrest]; subst.
  cbn [question_lines]. unfold dict_index.
  apply dict_has_get in Hqq as [vq Hqq]. rewrite Hqq, Ht. cbn [rbind].
  replace (eq_str (JString (str "true_false")) "multiple_choice") with false
    by (vm_compute; reflexivity).
  cbn [rbind].
  replace (eq_str (JString (str "true_false")) "true_false") with true
    by (vm_compute; reflexivity).
  cbn [rbind]. destruct (IH Hrest (i + 1)%Z) as [more ->]. cbn [rbind]. eauto. }
unfold export_quiz_to_text, export_lines.
destruct (Hq 1%Z) as [qs ->]. cbn [rbind].
destruct (answer_lines_ok quiz_data 1) as [ans ->].
- eapply Forall_impl; [|exact H]. intros q (d & [= <-] & _ & Ha & _). exact Ha.
- cbn [rbind]. eauto.
Qed.

End ExportFacts.

Lemma export_validated_witness :
  exists text,
    export_quiz_to_text str_of_text truth_of_text (str "January 01, 2025")
      [mc_record four_options "B"; tf_record "True"] = Ok text.
Proof.
  apply export_validated.
  intros q [<-|[<-|[]]]; vm_compute; reflexivity.
Defined.

Lemma export_missing_options_witness :
  export_quiz_to_text str_of_text truth_of_text (str "January 01, 2025")
    ([tf_record "True"] ++ mc_without_options :: [tf_record "False"])
  = Raise KeyError.
Proof.
  apply export_missing_options.
  - intros x [<-|[]]. vm_compute. reflexivity.
  - reflexivity.
  - reflexivity.
  - reflexivity.
Defined.

Lemma export_true_false_witness :
  exists text,
    export_quiz_to_text str_of_text truth_of_text (str "January 01, 2025")
      [tf_record "True"; tf_record "False"] = Ok text.
Proof.
  apply export_true_false.
  repeat constructor;
    (eexists; split; [reflexivity|]; repeat split; vm_compute; reflexivity).
Defined.

